(** * TOMELON: the analysis endpoints and their tolerant reply normalizer

    A shallow embedding of the three serverless handlers of the repository
    -- [src/api/analyze.js], its later revision [src/unnamed/part_002] and
    the tally-only endpoint [src/unnamed/part_001] -- and of the properties
    their specification states about them.  The three files share one
    skeleton: method check, credential check, prompt and message assembly,
    one call to the provider, and the normalizer that turns the reply text
    into a structured result or a raw fallback.  The build script
    ([src/unnamed/part_000]) takes no part in any of this.

    - JavaScript strings are sequences of UTF-16 code units.
    - Values decoded from JSON are a syntax tree; [undefined] is [None].
    - What the JavaScript engine itself decides ([JSON.parse], number
      formatting, [Array.prototype.join], ...) is an [Engine], a parameter
      of the whole development; [Reference.engine] is an executable one.
    - Exceptions are an error monad; the outer [try]/[catch] of a handler
      turns [Throw] into the 500 response.
    - The network is an oracle that answers the one outbound call. *)

From Stdlib Require Import Ascii String DecimalString.
From Stdlib Require Import List NArith ZArith Bool Lia.
Import ListNotations.

Local Open Scope N_scope.
Local Open Scope list_scope.

(** ** JavaScript strings *)

Module JsString.

(** A UTF-16 code unit. *)
Definition char16 := N.
Definition jsstring := list char16.

(** An ASCII literal of the source as a JavaScript string. *)
Definition js (s : string) : jsstring :=
  map N_of_ascii (list_ascii_of_string s).

(** The same, with every apostrophe of the literal standing for a quotation
    mark (U+0022), to write JSON texts and messages that quote words. *)
Definition jsq (s : string) : jsstring :=
  map (fun c => if c =? 39 then 34 else c) (js s).

Definition LF : jsstring := [10].

Fixpoint eqb (a b : jsstring) : bool :=
  match a, b with
  | [], [] => true
  | x :: a', y :: b' => (x =? y) && eqb a' b'
  | _, _ => false
  end.

(** [WhiteSpace] and [LineTerminator] of ECMAScript: the code units that
    [String.prototype.trim] removes and that [\s] matches. *)
Definition is_white_space (c : char16) : bool :=
  existsb (N.eqb c)
    [0x09; 0x0A; 0x0B; 0x0C; 0x0D; 0x20; 0xA0; 0x1680; 0x2028; 0x2029;
     0x202F; 0x205F; 0x3000; 0xFEFF]
  || ((0x2000 <=? c) && (c <=? 0x200A)).

Fixpoint trimStart (s : jsstring) : jsstring :=
  match s with
  | c :: t => if is_white_space c then trimStart t else s
  | [] => []
  end.

Definition trimEnd (s : jsstring) : jsstring := rev (trimStart (rev s)).

(** [s.trim()] *)
Definition trim (s : jsstring) : jsstring := trimEnd (trimStart s).

(** [Some rest] when [s = p ++ rest]. *)
Fixpoint strip_prefix (p s : jsstring) : option jsstring :=
  match p, s with
  | [], _ => Some s
  | a :: p', b :: s' => if a =? b then strip_prefix p' s' else None
  | _ :: _, [] => None
  end.

(** [s.startsWith(p)] *)
Definition startsWith (s p : jsstring) : bool :=
  match strip_prefix p s with Some _ => true | None => false end.

End JsString.
Export JsString.

Arguments js _%_string.
Arguments jsq _%_string.

(** ** The regular expressions of the fence stripper

    A pattern is given by its matcher at the head of the remaining input:
    [Some rest] when the pattern matches there, [rest] being what follows
    the match.  None of the three patterns below can match the empty
    string, and each has at most one way to match at a position (its
    optional parts are greedy and nothing follows them that could force
    backtracking). *)

Module Regex.

Definition matcher := jsstring -> option jsstring.

(** [c?] *)
Definition optional (c : char16) (s : jsstring) : jsstring :=
  match s with
  | d :: t => if d =? c then t else s
  | [] => s
  end.

(** [s.replace(re, '')] for a global ([g]) pattern: the input is scanned
    from the left; where the pattern matches, the match is dropped and the
    scan goes on behind it; elsewhere the code unit is kept.  [fuel] bounds
    the number of steps; [length s] steps always suffice. *)
Fixpoint replace_all_from (fuel : nat) (re : matcher) (s : jsstring) : jsstring :=
  match fuel with
  | O => s
  | S fuel' =>
      match re s with
      | Some rest => replace_all_from fuel' re rest
      | None =>
          match s with
          | [] => []
          | c :: t => c :: replace_all_from fuel' re t
          end
      end
  end.

Definition replace_all (re : matcher) (s : jsstring) : jsstring :=
  replace_all_from (length s) re s.

(** [/```json?\n?/]: three backticks, [jso], an optional [n], an optional
    line feed. *)
Definition re_fence_open : matcher := fun s =>
  match strip_prefix (js "```jso") s with
  | Some r => Some (optional 10 (optional 110 r))
  | None => None
  end.

(** [/```\s*$/]: three backticks and white space up to the end of the
    input (no [m] flag: [$] is the end of the whole text). *)
Definition re_fence_close_ws : matcher := fun s =>
  match strip_prefix (js "```") s with
  | Some r => if forallb is_white_space r then Some [] else None
  | None => None
  end.

(** [/```$/]: three backticks at the very end of the input. *)
Definition re_fence_close : matcher := fun s =>
  match strip_prefix (js "```") s with
  | Some [] => Some []
  | _ => None
  end.

(** The fence markers. *)
Definition fence : jsstring := js "```".
Definition fence_open_json : jsstring := js "```json" ++ LF.
Definition fence_open_bare : jsstring := js "```" ++ LF.

(** A pattern that consumes at least one code unit wherever it matches. *)
Definition consuming (re : matcher) : Prop :=
  forall s r, re s = Some r -> (length r < length s)%nat.

(** A pattern whose every match begins with a backtick. *)
Definition backtick_led (re : matcher) : Prop :=
  forall c t, c <> 96 -> re (c :: t) = None.

Definition no_backtick (s : jsstring) : Prop := Forall (fun c => c <> 96) s.

(** A text whose last code unit is no white space. *)
Definition ends_solid (s : jsstring) : Prop :=
  exists p c, s = p ++ [c] /\ is_white_space c = false.

(** A text that ends with a tagged opening marker. *)
Definition ends_tagged (s : jsstring) : Prop :=
  exists p, s = p ++ js "```jso" \/ s = p ++ js "```json".

End Regex.
Export Regex.

(** ** Values decoded from JSON *)

Module Json.

(** The syntax tree of a JSON text.  [number] is the engine's type of
    numbers (IEEE doubles in a JavaScript engine).  An object keeps its
    members in the order of the text, repeated keys included. *)
#[local] Unset Elimination Schemes.
Inductive json (number : Type) : Type :=
| JNull
| JBool (b : bool)
| JNumber (n : number)
| JString (s : jsstring)
| JArray (items : list (json number))
| JObject (members : list (jsstring * json number)).

#[local] Set Elimination Schemes.

Arguments JNull {number}.
Arguments JBool {number} b.
Arguments JNumber {number} n.
Arguments JString {number} s.
Arguments JArray {number} items.
Arguments JObject {number} members.

(** The value of key [k] among the members of an object: as [JSON.parse]
    builds the object, a later member with the same key replaces an earlier
    one.  [None] is JavaScript's [undefined]. *)
Fixpoint obj_get {number} (m : list (jsstring * json number)) (k : jsstring)
  : option (json number) :=
  match m with
  | [] => None
  | (k', v) :: m' =>
      match obj_get m' k with
      | Some later => Some later
      | None => if eqb k' k then Some v else None
      end
  end.

(** [v.k] for a value [v] that is neither [undefined] nor [null] and one of
    the keys the handlers read ([parseType], [content], [imageBase64],
    [mimeType], [existingShips], [currentYear], [type], [text]): none of
    them is a property of a string, number, boolean or array, nor inherited
    from [Object.prototype], so only an object's own member answers. *)
Definition get_own {number} (v : json number) (k : jsstring) : option (json number) :=
  match v with
  | JObject m => obj_get m k
  | _ => None
  end.

End Json.
Export Json.

(** ** Exceptions *)

(** A thrown [Error], identified with its [message], the one part of it the
    handlers read. *)
Definition Error := jsstring.

Inductive outcome (A : Type) : Type :=
| Ok (a : A)
| Throw (e : Error).

Arguments Ok {A} a.
Arguments Throw {A} e.

Definition bind {A B} (c : outcome A) (k : A -> outcome B) : outcome B :=
  match c with
  | Ok a => k a
  | Throw e => Throw e
  end.

Notation "x <- c ;; k" := (bind c (fun x => k))
  (at level 61, c at next level, right associativity).

(** The [TypeError]s the handlers can raise by themselves. *)
Inductive type_error :=
| destructure_nullish            (* [const { ... } = req.body] on undefined or null *)
| read_of_nullish (key : jsstring)  (* [x.key] on undefined or null *)
| not_a_function (key : jsstring). (* [x.key(...)] where [x.key] is no function *)

(** ** The JavaScript engine

    What the language runtime decides and the repository does not. *)
Class Engine := {
  (** the numbers [JSON.parse] produces *)
  number : Type;
  (** [!!n]: false for zero (and NaN) only *)
  number_truthy : number -> bool;
  (** [JSON.parse(text)]; [Throw] is its [SyntaxError] *)
  JSON_parse : jsstring -> outcome (json number);
  (** [ToString] of a number, an array or an object, as a template literal
      applies it; it throws on an object whose own [toString] member hides
      the inherited method *)
  display : json number -> outcome jsstring;
  (** [items.join(separator)] *)
  Array_join : list (json number) -> jsstring -> outcome jsstring;
  (** [v > 0], for the [length] member of a decoded object *)
  greater_than_zero : option (json number) -> bool;
  (** the message of a [TypeError] *)
  TypeError : type_error -> Error
}.

(** The long prompt literals of the three files, which no property below
    depends on. *)
Class Prompts := {
  (** analyze.js, lines 31-79 *)
  analyze_js_email_system : jsstring;
  (** analyze.js, lines 89-124 *)
  analyze_js_tally_system : jsstring;
  (** part_002, lines 34-200: a template with [${year}] (twice) *)
  part_002_email_system : jsstring -> jsstring;
  (** part_002, lines 210-337 *)
  part_002_tally_system : jsstring;
  (** part_001, lines 27-59 *)
  part_001_system : jsstring
}.

(** ** The three files *)

Inductive analyze_file :=
| analyze_js   (* src/api/analyze.js *)
| part_002.    (* src/unnamed/part_002 *)

Inductive endpoint :=
| analyze (f : analyze_file)
| part_001.    (* src/unnamed/part_001 *)

Section Handlers.

Context {E : Engine} {P : Prompts}.

Definition JSON := json number.

(** A JavaScript value as the handlers meet them: a decoded JSON value, or
    [undefined]. *)
Definition value := option JSON.

(** [!!v] *)
Definition truthy (v : value) : bool :=
  match v with
  | None => false
  | Some JNull => false
  | Some (JBool b) => b
  | Some (JNumber n) => number_truthy n
  | Some (JString s) => negb (eqb s [])
  | Some (JArray _) => true
  | Some (JObject _) => true
  end.

(** [a || b], for a [b] that is not [undefined] *)
Definition or_else (a : value) (b : JSON) : JSON :=
  match a with
  | Some x => if truthy a then x else b
  | None => b
  end.

(** [`${v}`] *)
Definition ToString (v : value) : outcome jsstring :=
  match v with
  | None => Ok (js "undefined")
  | Some JNull => Ok (js "null")
  | Some (JBool true) => Ok (js "true")
  | Some (JBool false) => Ok (js "false")
  | Some (JString s) => Ok s
  | Some x => display x
  end.

(** [v === 'literal'] *)
Definition is_string (v : value) (literal : string) : bool :=
  match v with
  | Some (JString s) => eqb s (js literal)
  | _ => false
  end.

(** [body.key] *)
Definition field (body : JSON) (key : string) : value := get_own body (js key).

(** *** Responses *)

(** What [res.status(n).json(obj)] or [res.status(n).end()] sends; the
    members of [obj] are in the order the source writes them, a member
    whose value is [undefined] being left out as [JSON.stringify] does. *)
Record response := {
  status : N;
  body : option (list (jsstring * JSON))
}.

Definition member (key : string) (v : value) : list (jsstring * JSON) :=
  match v with
  | Some x => [(js key, x)]
  | None => []
  end.

Definition str (s : jsstring) : value := Some (JString s).

(** [{ success: true, parsed: parsedData }], status 200 *)
Definition Structured (parsedData : JSON) : response :=
  {| status := 200;
     body := Some (member "success" (Some (JBool true))
                   ++ member "parsed" (Some parsedData)) |}.

(** [{ success: true, raw, parsed: null, message }], status 200 *)
Definition RawFallback (raw : value) : response :=
  {| status := 200;
     body := Some (member "success" (Some (JBool true))
                   ++ member "raw" raw
                   ++ member "parsed" (Some JNull)
                   ++ member "message"
                        (str (js "Could not parse as JSON, returning raw analysis"))) |}.

(** [{ error, ...more }] with the given status *)
Definition Failure (st : N) (error : jsstring) (more : list (jsstring * JSON)) : response :=
  {| status := st; body := Some (member "error" (str error) ++ more) |}.

Definition MethodNotAllowed : response :=
  Failure 405 (js "Method not allowed") [].

Definition MissingCredential (ep : endpoint) : response :=
  Failure 500
    match ep with
    | analyze analyze_js =>
        js "Claude API key not configured. Add ANTHROPIC_API_KEY to Vercel Environment Variables."
    | analyze part_002 => js "API key not configured"
    | part_001 => js "Claude API key not configured"
    end [].

Definition InvalidMode : response :=
  Failure 400 (jsq "Invalid parseType. Use 'email', 'message', or 'tally'") [].

Definition MissingContent (ep : endpoint) : response :=
  Failure 400
    match ep with
    | analyze _ => js "Provide either text content or image"
    | part_001 => js "Invalid request: provide either text content or image"
    end [].

Definition UpstreamFailure (ep : endpoint) (st : N) (errorData : jsstring) : response :=
  Failure st
    match ep with
    | analyze part_002 => js "API error"
    | _ => js "Claude API error"
    end
    (member "details" (str errorData)).

Definition NoTextResponse (ep : endpoint) : response :=
  Failure 500
    match ep with
    | analyze part_002 => js "No text response"
    | _ => js "No text response from Claude"
    end [].

(** the outer [catch (error)] *)
Definition InternalFailure (error : Error) : response :=
  Failure 500 (js "Server error") (member "message" (str error)).

(** [res.status(200).end()] *)
Definition Preflight : response := {| status := 200; body := None |}.

(** *** The response normalizer *)

Definition re_fence_close_of (ep : endpoint) : matcher :=
  match ep with
  | analyze _ => re_fence_close_ws
  | part_001 => re_fence_close
  end.

(** [if (jsonText.startsWith('```')) jsonText =
      jsonText.replace(/```json?\n?/g, '').replace(/```\s*$/g, '').trim()] *)
Definition strip_fences (ep : endpoint) (jsonText : jsstring) : jsstring :=
  if startsWith jsonText (js "```")
  then trim (replace_all (re_fence_close_of ep) (replace_all re_fence_open jsonText))
  else jsonText.

(** The text handed to [JSON.parse] for a reply [text]. *)
Definition jsonText_of (ep : endpoint) (text : jsstring) : jsstring :=
  strip_fences ep (trim text).

(** The inner [try { ... } catch (parseError) { ... }] and the final
    [return], for [text = textContent.text].  A [text] that is no string
    makes [.trim()] throw inside the [try]. *)
Definition normalize (ep : endpoint) (text : value) : response :=
  match text with
  | Some (JString s) =>
      match JSON_parse (jsonText_of ep s) with
      | Ok parsedData => Structured parsedData
      | Throw _ => RawFallback text
      end
  | _ => RawFallback text
  end.

(** *** The outbound call *)

Inductive content_block :=
| image_block (media_type : JSON) (data : value)   (* [source.type] is 'base64' *)
| text_block (text : JSON).

Inductive message_content :=
| plain (text : value)
| blocks (bs : list content_block).

(** One entry of [messages]; [role] is always ['user']. *)
Record message := { role : jsstring; content : message_content }.

(** The request [fetch] is called with. *)
Record outbound := {
  url : jsstring;
  x_api_key : jsstring;
  anthropic_version : jsstring;
  model : jsstring;
  max_tokens : N;
  system : jsstring;
  messages : list message
}.

Definition call_Claude (apiKey systemPrompt : jsstring) (msgs : list message) : outbound :=
  {| url := js "https://api.anthropic.com/v1/messages";
     x_api_key := apiKey;
     anthropic_version := js "2023-06-01";
     model := js "claude-sonnet-4-20250514";
     max_tokens := 4096;
     system := systemPrompt;
     messages := msgs |}.

(** How the call ends: [fetch] rejects (a network error), or it resolves
    to a response with a status and a body; reading the body
    ([response.text()], [response.json()]) may itself reject. *)
Inductive fetch_result :=
| Rejected (e : Error)
| Resolved (upstream_status : N) (upstream_body : outcome jsstring).

(** [response.ok] *)
Definition ok (st : N) : bool := (200 <=? st) && (st <=? 299).

(** What lies outside the handler: the provider, and the clock that
    [new Date().getFullYear()] reads. *)
Record world := {
  fetch : outbound -> fetch_result;
  getFullYear : number
}.

(** *** Prompt Builder (analyze.js and part_002) *)

(** [if (existingShips && existingShips.length > 0)
       systemPrompt += `...${existingShips.join(', ')}`]:
    the text appended to the system prompt.  A non-empty string has a
    positive [length] and no [join]; an object has the [length] of its
    own member, and no callable [join]; numbers and booleans have no
    [length]. *)
Definition existingShips_note (f : analyze_file) (existingShips : value)
  : outcome jsstring :=
  let intro :=
    match f with
    | analyze_js =>
        LF ++ LF ++ js "Existing ships in the system (try to match vessel names): "
    | part_002 =>
        LF ++ LF ++ js "## Existing Ships in System (match if possible):" ++ LF
    end in
  match existingShips with
  | Some (JArray []) => Ok []
  | Some (JArray items) =>
      joined <- Array_join items (js ", ") ;; Ok (intro ++ joined)
  | Some (JString []) => Ok []
  | Some (JString _) => Throw (TypeError (not_a_function (js "join")))
  | Some (JObject m) =>
      if greater_than_zero (obj_get m (js "length"))
      then Throw (TypeError (not_a_function (js "join")))
      else Ok []
  | _ => Ok []
  end.

(** [systemPrompt] of the email / message mode, before the note on
    existing ships.  In part_002 it is a template over
    [year = currentYear || new Date().getFullYear()]. *)
Definition email_system (f : analyze_file) (w : world) (body : JSON)
  : outcome jsstring :=
  match f with
  | analyze_js => Ok analyze_js_email_system
  | part_002 =>
      let year := or_else (field body "currentYear") (JNumber (getFullYear w)) in
      y <- ToString (Some year) ;; Ok (part_002_email_system y)
  end.

Definition tally_system (f : analyze_file) : jsstring :=
  match f with
  | analyze_js => analyze_js_tally_system
  | part_002 => part_002_tally_system
  end.

Definition tally_user_intro (f : analyze_file) : jsstring :=
  match f with
  | analyze_js => js "Analyze this tally/discharge report:" ++ LF ++ LF
  | part_002 =>
      js "Analyze this tally/discharge report and extract ALL cargo information by type. Pay special attention to summary tables with Manifest, Previous, Remain values:"
      ++ LF ++ LF
  end.

(** The [if (parseType === ...) ... else if ... else return 400] block:
    [Some (systemPrompt, userPrompt)], or [None] for an unrecognised
    [parseType]. *)
Definition build_prompts (f : analyze_file) (w : world) (body : JSON)
  : outcome (option (jsstring * value)) :=
  let parseType := field body "parseType" in
  let content := field body "content" in
  if is_string parseType "email" || is_string parseType "message" then
    systemPrompt <- email_system f w body ;;
    note <- existingShips_note f (field body "existingShips") ;;
    Ok (Some (systemPrompt ++ note, content))
  else if is_string parseType "tally" then
    c <- ToString content ;;
    Ok (Some (tally_system f, str (tally_user_intro f ++ c)))
  else Ok None.

(** [parseType] names one of the three modes. *)
Definition recognised (body : JSON) : bool :=
  let parseType := field body "parseType" in
  is_string parseType "email" || is_string parseType "message"
  || is_string parseType "tally".

Definition image_text_default : JSON :=
  JString (js "Extract all shipping information from this image. Return JSON only.").

(** The [if (imageBase64) ... else if (content) ... else return 400]
    block: the [messages] array, or [None] when neither is given. *)
Definition build_messages (body : JSON) (userPrompt : value) : option (list message) :=
  let content := field body "content" in
  let imageBase64 := field body "imageBase64" in
  let mimeType := field body "mimeType" in
  if truthy imageBase64 then
    Some [ {| role := js "user";
              content := blocks
                [ image_block (or_else mimeType (JString (js "image/jpeg"))) imageBase64;
                  text_block (or_else userPrompt image_text_default) ] |} ]
  else if truthy content then
    Some [ {| role := js "user"; content := plain userPrompt |} ]
  else None.

(** *** Message building of part_001 *)

Definition part_001_image_text : JSON :=
  JString (js "Analyze this tally/discharge report image and extract all the data. Return JSON only.").

Definition part_001_text_intro : jsstring :=
  js "Analyze this tally/discharge report and extract all the data. Return JSON only."
  ++ LF ++ LF.

(** The [if (type === 'image' && imageBase64) ... else if (type === 'text'
    && content) ... else return 400] block. *)
Definition part_001_messages (body : JSON) : outcome (option (list message)) :=
  let type := field body "type" in
  let content := field body "content" in
  let imageBase64 := field body "imageBase64" in
  let mimeType := field body "mimeType" in
  if is_string type "image" && truthy imageBase64 then
    Ok (Some [ {| role := js "user";
                  content := blocks
                    [ image_block (or_else mimeType (JString (js "image/jpeg"))) imageBase64;
                      text_block part_001_image_text ] |} ])
  else if is_string type "text" && truthy content then
    c <- ToString content ;;
    Ok (Some [ {| role := js "user"; content := plain (str (part_001_text_intro ++ c)) |} ])
  else Ok None.

(** *** From the request body to the outbound call *)

(** Everything between the destructuring of [req.body] and the call of
    [fetch]: an early response ([inl]), or the system prompt and the
    messages to send ([inr]). *)
Definition plan (ep : endpoint) (w : world) (body : JSON)
  : outcome (response + jsstring * list message) :=
  match ep with
  | analyze f =>
      prompts <- build_prompts f w body ;;
      match prompts with
      | None => Ok (inl InvalidMode)
      | Some (systemPrompt, userPrompt) =>
          match build_messages body userPrompt with
          | None => Ok (inl (MissingContent ep))
          | Some msgs => Ok (inr (systemPrompt, msgs))
          end
      end
  | part_001 =>
      msgs <- part_001_messages body ;;
      match msgs with
      | None => Ok (inl (MissingContent ep))
      | Some msgs => Ok (inr (part_001_system, msgs))
      end
  end.

(** *** From the provider's answer to the response *)

(** [items.find(c => c.type === 'text')]: reading [c.type] throws on a
    [null] item; any other item that is no object has no [type]. *)
Fixpoint find_text (items : list JSON) : outcome (option JSON) :=
  match items with
  | [] => Ok None
  | c :: rest =>
      match c with
      | JNull => Throw (TypeError (read_of_nullish (js "type")))
      | _ => if is_string (get_own c (js "type")) "text" then Ok (Some c) else find_text rest
      end
  end.

(** [data.content.find(c => c.type === 'text')]: only an array has a
    [find] method. *)
Definition textContent_of (data : JSON) : outcome (option JSON) :=
  match data with
  | JNull => Throw (TypeError (read_of_nullish (js "content")))
  | _ =>
      match get_own data (js "content") with
      | Some (JArray items) => find_text items
      | None | Some JNull => Throw (TypeError (read_of_nullish (js "find")))
      | Some _ => Throw (TypeError (not_a_function (js "find")))
      end
  end.

(** The handler from the [await fetch(...)] on. *)
Definition after_fetch (ep : endpoint) (r : fetch_result) : outcome response :=
  match r with
  | Rejected e => Throw e
  | Resolved st upstream =>
      if negb (ok st) then
        errorData <- upstream ;;
        Ok (UpstreamFailure ep st errorData)
      else
        data <- (text <- upstream ;; JSON_parse text) ;;
        textContent <- textContent_of data ;;
        match textContent with
        | None => Ok (NoTextResponse ep)
        | Some c => Ok (normalize ep (get_own c (js "text")))
        end
  end.

(** *** The handler *)

Definition request_body := value.

Record request := { method : jsstring; req_body : request_body }.

(** [process.env] *)
Definition environment := jsstring -> option jsstring.

Definition api_key_name (ep : endpoint) : jsstring :=
  match ep with
  | analyze _ => js "ANTHROPIC_API_KEY"
  | part_001 => js "CLAUDE_API_KEY"
  end.

(** What one invocation leaves behind: the headers set on [res], the
    responses sent through it, and the calls made to the provider. *)
Record run := {
  headers : list (jsstring * jsstring);
  responses : list response;
  calls : list outbound
}.

Definition cors_headers : list (jsstring * jsstring) :=
  [ (js "Access-Control-Allow-Origin", js "*");
    (js "Access-Control-Allow-Methods", js "POST, OPTIONS");
    (js "Access-Control-Allow-Headers", js "Content-Type") ].

Definition finish (made : list outbound) (r : response) : run :=
  {| headers := cors_headers; responses := [r]; calls := made |}.

(** The body of the outer [try]: the calls made, and the response
    returned or the exception thrown. *)
Definition try_block (ep : endpoint) (apiKey : jsstring) (w : world) (b : request_body)
  : list outbound * outcome response :=
  match b with
  | None | Some JNull => ([], Throw (TypeError destructure_nullish))
  | Some body =>
      match plan ep w body with
      | Throw e => ([], Throw e)
      | Ok (inl early) => ([], Ok early)
      | Ok (inr (systemPrompt, msgs)) =>
          let call := call_Claude apiKey systemPrompt msgs in
          ([call], after_fetch ep (fetch w call))
      end
  end.

Definition handler (ep : endpoint) (env : environment) (w : world) (req : request) : run :=
  if eqb (method req) (js "OPTIONS") then finish [] Preflight
  else if negb (eqb (method req) (js "POST")) then finish [] MethodNotAllowed
  else
    match env (api_key_name ep) with
    | None | Some [] => finish [] (MissingCredential ep)
    | Some apiKey =>
        match try_block ep apiKey w (req_body req) with
        | (made, Ok r) => finish made r
        | (made, Throw error) => finish made (InternalFailure error)
        end
    end.

(** *** The variants of [ExtractionResult], read off a response *)

Inductive variant := structured | raw_fallback | failure.

Definition keys (r : response) : list jsstring :=
  match body r with
  | Some members => map fst members
  | None => []
  end.

Definition keys_are (r : response) (ks : list string) : bool :=
  match body r with
  | Some members =>
      Nat.eqb (length members) (length ks)
      && forallb (fun p => eqb (fst (fst p)) (js (snd p))) (combine members ks)
  | None => false
  end.

Definition member_of (r : response) (key : string) : value :=
  match body r with
  | Some members =>
      match find (fun p => eqb (fst p) (js key)) members with
      | Some (_, v) => Some v
      | None => None
      end
  | None => None
  end.

Definition is_true (v : value) : bool :=
  match v with Some (JBool true) => true | _ => false end.

Definition is_null (v : value) : bool :=
  match v with Some JNull => true | _ => false end.

Definition is_a_string (v : value) : bool :=
  match v with Some (JString _) => true | _ => false end.

(** [{ success: true, parsed }], sent with status 200 *)
Definition is_structured (r : response) : bool :=
  (status r =? 200)
  && keys_are r ["success"; "parsed"]%string
  && is_true (member_of r "success").

(** [{ success: true, raw, parsed: null, message }], sent with status 200;
    [raw] is missing when the reply had no text at all *)
Definition is_raw_fallback (r : response) : bool :=
  (status r =? 200)
  && (keys_are r ["success"; "raw"; "parsed"; "message"]%string
      || keys_are r ["success"; "parsed"; "message"]%string)
  && is_true (member_of r "success")
  && is_null (member_of r "parsed")
  && is_a_string (member_of r "message").

(** [{ error, ... }], sent with a status outside 200..299 *)
Definition is_failure (r : response) : bool :=
  negb (ok (status r))
  && is_a_string (member_of r "error")
  && negb (existsb (eqb (js "success")) (keys r)).

Definition variants_of (r : response) : list variant :=
  (if is_structured r then [structured] else [])
  ++ (if is_raw_fallback r then [raw_fallback] else [])
  ++ (if is_failure r then [failure] else []).

End Handlers.

(** ** A reference engine

    A small executable engine, to run the handlers on concrete requests
    and replies.  Its reader follows the JSON grammar (ECMA-404) as
    [JSON.parse] does.  A number is kept as the decimal numeral the text
    spells, not rounded to a double: it is falsy when all its digits are
    zero, and it is displayed as an engine does when it is a plain integer
    numeral; the examples of this file only meet such numbers.  The
    theorems below hold for every engine and do not rest on this one. *)

Module Reference.

Record numeral := {
  negative : bool;
  mantissa : N;        (* the digits of the integer and fraction parts *)
  exponent10 : Z       (* the exponent, less the number of fraction digits *)
}.

Definition rjson := json numeral.

(** the number a plain numeral [n] spells *)
Definition int (n : N) : rjson :=
  JNumber {| negative := false; mantissa := n; exponent10 := 0 |}.

Definition is_json_space (c : char16) : bool :=
  existsb (N.eqb c) [0x20; 0x09; 0x0A; 0x0D].

Fixpoint skip_space (s : jsstring) : jsstring :=
  match s with
  | c :: t => if is_json_space c then skip_space t else s
  | [] => []
  end.

Definition is_digit (c : char16) : bool := (48 <=? c) && (c <=? 57).

(** The digits at the head of [s], read onto [acc]: the value, how many
    digits there were, and the rest. *)
Fixpoint read_digits (acc : N) (count : nat) (s : jsstring) : N * nat * jsstring :=
  match s with
  | c :: t =>
      if is_digit c then read_digits (10 * acc + (c - 48)) (S count) t
      else (acc, count, s)
  | [] => (acc, count, s)
  end.

Definition hex_value (c : char16) : option N :=
  if is_digit c then Some (c - 48)
  else if (65 <=? c) && (c <=? 70) then Some (c - 55)
  else if (97 <=? c) && (c <=? 102) then Some (c - 87)
  else None.

(** [number]: an optional minus, [0] or a numeral without leading zero,
    an optional fraction, an optional exponent. *)
Definition read_number (s : jsstring) : option (numeral * jsstring) :=
  let (neg, s1) :=
    match s with
    | 45 :: t => (true, t)
    | _ => (false, s)
    end in
  match s1 with
  | [] => None
  | d :: t =>
      if negb (is_digit d) then None else
      let '(int, _, s2) := if d =? 48 then (0, 1%nat, t) else read_digits 0 0 s1 in
      let frac :=
        match s2 with
        | 46 :: t2 =>
            match read_digits int 0 t2 with
            | (_, O, _) => None
            | (m, n, s3) => Some (m, Z.of_nat n, s3)
            end
        | _ => Some (int, 0%Z, s2)
        end in
      match frac with
      | None => None
      | Some (m, n, s3) =>
          let after_e (t3 : jsstring) :=
            let (minus, s4) :=
              match t3 with
              | 43 :: t4 => (false, t4)
              | 45 :: t4 => (true, t4)
              | _ => (false, t3)
              end in
            match read_digits 0 0 s4 with
            | (_, O, _) => None
            | (e, _, s5) =>
                let e := if minus then (- Z.of_N e)%Z else Z.of_N e in
                Some ({| negative := neg; mantissa := m; exponent10 := (e - n)%Z |}, s5)
            end in
          match s3 with
          | 101 :: t3 => after_e t3
          | 69 :: t3 => after_e t3
          | _ => Some ({| negative := neg; mantissa := m; exponent10 := (- n)%Z |}, s3)
          end
      end
  end.

(** The characters of a string up to its closing quotation mark, escapes
    decoded; [s] starts behind the opening quotation mark. *)
Fixpoint read_string (s : jsstring) : option (jsstring * jsstring) :=
  match s with
  | [] => None
  | c :: t =>
      if c =? 34 then Some ([], t)
      else if c <? 32 then None
      else if c =? 92 then
        match t with
        | [] => None
        | e :: t1 =>
            let simple (d : char16) :=
              match read_string t1 with
              | Some (str, rest) => Some (d :: str, rest)
              | None => None
              end in
            if e =? 34 then simple 34
            else if e =? 92 then simple 92
            else if e =? 47 then simple 47
            else if e =? 98 then simple 8
            else if e =? 102 then simple 12
            else if e =? 110 then simple 10
            else if e =? 114 then simple 13
            else if e =? 116 then simple 9
            else if e =? 117 then
              match t1 with
              | h1 :: h2 :: h3 :: h4 :: t2 =>
                  match hex_value h1, hex_value h2, hex_value h3, hex_value h4 with
                  | Some a, Some b, Some c', Some d =>
                      match read_string t2 with
                      | Some (str, rest) =>
                          Some ((((a * 16 + b) * 16 + c') * 16 + d) :: str, rest)
                      | None => None
                      end
                  | _, _, _, _ => None
                  end
              | _ => None
              end
            else None
        end
      else
        match read_string t with
        | Some (str, rest) => Some (c :: str, rest)
        | None => None
        end
  end.

Section Reader.

(** the reader of a value, one level of nesting further down *)
Variable read_inner : jsstring -> option (rjson * jsstring).

(** [elements]: values separated by commas, up to the closing bracket;
    [s] starts at the first value. *)
Fixpoint read_elements (fuel : nat) (s : jsstring) : option (list rjson * jsstring) :=
  match fuel with
  | O => None
  | S fuel' =>
      match read_inner s with
      | None => None
      | Some (v, r) =>
          match skip_space r with
          | 93 :: r' => Some ([v], r')
          | 44 :: r' =>
              match read_elements fuel' (skip_space r') with
              | Some (vs, rest) => Some (v :: vs, rest)
              | None => None
              end
          | _ => None
          end
      end
  end.

(** [members]: [string : value] pairs separated by commas, up to the
    closing brace; [s] starts at the first key. *)
Fixpoint read_members (fuel : nat) (s : jsstring)
  : option (list (jsstring * rjson) * jsstring) :=
  match fuel with
  | O => None
  | S fuel' =>
      match s with
      | 34 :: s1 =>
          match read_string s1 with
          | None => None
          | Some (k, s2) =>
              match skip_space s2 with
              | 58 :: s3 =>
                  match read_inner (skip_space s3) with
                  | None => None
                  | Some (v, r) =>
                      match skip_space r with
                      | 125 :: r' => Some ([(k, v)], r')
                      | 44 :: r' =>
                          match read_members fuel' (skip_space r') with
                          | Some (kvs, rest) => Some ((k, v) :: kvs, rest)
                          | None => None
                          end
                      | _ => None
                      end
                  end
              | _ => None
              end
          end
      | _ => None
      end
  end.

End Reader.

(** [value], [s] starting at its first character. *)
Fixpoint read_value (fuel : nat) (s : jsstring) : option (rjson * jsstring) :=
  match fuel with
  | O => None
  | S fuel' =>
      match s with
      | [] => None
      | c :: t =>
          if c =? 123 then
            match skip_space t with
            | 125 :: r => Some (JObject [], r)
            | r =>
                match read_members (read_value fuel') fuel' r with
                | Some (kvs, rest) => Some (JObject kvs, rest)
                | None => None
                end
            end
          else if c =? 91 then
            match skip_space t with
            | 93 :: r => Some (JArray [], r)
            | r =>
                match read_elements (read_value fuel') fuel' r with
                | Some (vs, rest) => Some (JArray vs, rest)
                | None => None
                end
            end
          else if c =? 34 then
            match read_string t with
            | Some (str, rest) => Some (JString str, rest)
            | None => None
            end
          else
            match strip_prefix (js "true") s, strip_prefix (js "false") s,
                  strip_prefix (js "null") s with
            | Some r, _, _ => Some (JBool true, r)
            | _, Some r, _ => Some (JBool false, r)
            | _, _, Some r => Some (JNull, r)
            | _, _, _ =>
                match read_number s with
                | Some (n, r) => Some (JNumber n, r)
                | None => None
                end
            end
      end
  end.

Definition syntax_error : Error := js "Unexpected token".

(** [JSON.parse]: one value between optional white space, and nothing
    else. *)
Definition parse (text : jsstring) : outcome rjson :=
  match read_value (S (length text)) (skip_space text) with
  | Some (v, rest) =>
      match skip_space rest with
      | [] => Ok v
      | _ => Throw syntax_error
      end
  | None => Throw syntax_error
  end.

(** The decimal digits of [n], most significant first, [fuel] digits at
    most. *)
Fixpoint digits_of (fuel : nat) (n : N) (acc : jsstring) : jsstring :=
  match fuel with
  | O => acc
  | S fuel' =>
      let acc' := (48 + n mod 10) :: acc in
      if n <? 10 then acc' else digits_of fuel' (n / 10) acc'
  end.

(** The numeral as a template literal shows it: its digits when it is a
    plain integer numeral, as an engine prints an integer below 10^21; a
    numeral with a fraction is shown by its digits and a power of ten,
    which is not an engine's notation. *)
Definition show_numeral (n : numeral) : jsstring :=
  let m := if (0 <=? exponent10 n)%Z
           then mantissa n * 10 ^ Z.to_N (exponent10 n)
           else mantissa n in
  let ds := digits_of (S (N.to_nat (N.log2 m))) m [] in
  let ds := if (exponent10 n <? 0)%Z
            then ds ++ js "e" ++ [45] ++
                 digits_of (S (Z.to_nat (- exponent10 n))) (Z.to_N (- exponent10 n)) []
            else ds in
  if negative n && negb (mantissa n =? 0) then 45 :: ds else ds.

Definition cannot_convert : Error := js "Cannot convert object to primitive value".

(** [ToString]; an array is its items joined by commas, [null] items
    giving nothing. *)
Fixpoint show (v : rjson) : outcome jsstring :=
  match v with
  | JNull => Ok (js "null")
  | JBool true => Ok (js "true")
  | JBool false => Ok (js "false")
  | JNumber n => Ok (show_numeral n)
  | JString s => Ok s
  | JArray items =>
      (fix join (l : list rjson) : outcome jsstring :=
         match l with
         | [] => Ok []
         | x :: rest =>
             a <- match x with JNull => Ok [] | _ => show x end ;;
             match rest with
             | [] => Ok a
             | _ => b <- join rest ;; Ok (a ++ js "," ++ b)
             end
         end) items
  | JObject m =>
      match obj_get m (js "toString") with
      | Some _ => Throw cannot_convert
      | None => Ok (js "[object Object]")
      end
  end.

Fixpoint join (items : list rjson) (separator : jsstring) : outcome jsstring :=
  match items with
  | [] => Ok []
  | x :: rest =>
      a <- match x with JNull => Ok [] | _ => show x end ;;
      match rest with
      | [] => Ok a
      | _ => b <- join rest separator ;; Ok (a ++ separator ++ b)
      end
  end.

(** [v > 0], exact for numbers, booleans, [null] and [undefined]; a
    string, array or object is taken not to spell a number. *)
Definition positive (v : option rjson) : bool :=
  match v with
  | Some (JNumber n) => negb (negative n) && negb (mantissa n =? 0)
  | Some (JBool b) => b
  | _ => false
  end.

Definition type_error_message (e : type_error) : Error :=
  match e with
  | destructure_nullish => js "Cannot destructure property of req.body as it is undefined."
  | read_of_nullish k => js "Cannot read properties of undefined (reading " ++ k ++ js ")"
  | not_a_function k => k ++ js " is not a function"
  end.

#[export] Instance engine : Engine := {|
  number := numeral;
  number_truthy := fun n => negb (mantissa n =? 0);
  JSON_parse := parse;
  display := show;
  Array_join := join;
  greater_than_zero := positive;
  TypeError := type_error_message
|}.

(** Short stand-ins for the prompt literals. *)
#[export] Instance prompts : Prompts := {|
  analyze_js_email_system := js "You are an expert shipping operations assistant.";
  analyze_js_tally_system := js "You are an expert at analyzing shipping tally reports.";
  part_002_email_system := fun year => js "Current year is " ++ year ++ js ".";
  part_002_tally_system := js "You are an expert at analyzing discharge reports.";
  part_001_system := js "You are an expert at analyzing shipping tally reports."
|}.

(** A world without network: [fetch] rejects. *)
Definition offline : world :=
  {| fetch := fun _ => Rejected (js "fetch failed"); getFullYear := {| negative := false; mantissa := 2026; exponent10 := 0 |} |}.

(** A world whose provider gives the same answer to every call. *)
Definition answering (r : fetch_result) : world :=
  {| fetch := fun _ => r; getFullYear := {| negative := false; mantissa := 2026; exponent10 := 0 |} |}.

(** [process.env] with the credential of all three files set to [key]. *)
Definition with_key (key : jsstring) : environment :=
  fun name =>
    if eqb name (js "ANTHROPIC_API_KEY") || eqb name (js "CLAUDE_API_KEY")
    then Some key else None.

Definition no_key : environment := fun _ => None.

(** A POST request with the given members in its body. *)
Definition post (members : list (string * rjson)) : request :=
  {| method := js "POST";
     req_body := Some (JObject (map (fun p => (js (fst p), snd p)) members)) |}.

End Reference.

(** ** The build script

    [formatBytes] of [src/unnamed/part_000], which prints the sizes of the
    page before and after minification and their difference.  Its
    argument is an integer-valued number: a file size, or the difference
    of two, below 2^53 in magnitude. *)

Module BuildScript.

(** [String(n)] for an integer [n] (JavaScript prints every digit of an
    integer below 10^21 in magnitude). *)
Definition integer (n : Z) : jsstring :=
  js (NilZero.string_of_int (Z.to_int n)).

(** The digits of [n] with a point before the last [f] of them, zeros
    put in front so that a digit stands before the point: how [toFixed]
    writes [n / 10^f]. *)
Definition point (n : N) (f : nat) : jsstring :=
  let ds := js (NilZero.string_of_uint (N.to_uint n)) in
  let ds := repeat 48 (S f - length ds) ++ ds in
  firstn (length ds - f) ds ++ js "." ++ skipn (length ds - f) ds.

(** [(bytes / 2^k).toFixed(f)] for an integer [bytes >= 0].  The
    quotient of an integer by a power of two is exact in binary floating
    point, and [toFixed] takes the integer [n] for which [n / 10^f] is
    nearest to it, the larger of two such: [bytes * 10^f / 2^k] rounded
    half up. *)
Definition scaled_toFixed (bytes k : Z) (f : nat) : jsstring :=
  point (Z.to_N ((bytes * 10 ^ Z.of_nat f + 2 ^ (k - 1)) / 2 ^ k)) f.

Definition formatBytes (bytes : Z) : jsstring :=
  if (bytes <? 1024)%Z then integer bytes ++ js " B"
  else if (bytes <? 1024 * 1024)%Z then scaled_toFixed bytes 10 1 ++ js " KB"
  else scaled_toFixed bytes 20 2 ++ js " MB".

End BuildScript.

(** * Properties *)

(** ** Strings and patterns *)

Section StringFacts.

Lemma eqb_refl (s : jsstring) : eqb s s = true.
Proof. induction s as [|c s IH]; simpl; [reflexivity|]. now rewrite N.eqb_refl. Qed.

Lemma eqb_eq (a b : jsstring) : eqb a b = true <-> a = b.
Proof.
  split; [|intros ->; apply eqb_refl].
  revert b; induction a as [|x a IH]; intros [|y b]; simpl; try easy.
  intros H; apply andb_true_iff in H as [H1 H2].
  apply N.eqb_eq in H1; subst; f_equal; auto.
Qed.

Lemma strip_prefix_app (p r : jsstring) : strip_prefix p (p ++ r) = Some r.
Proof. induction p as [|a p IH]; simpl; [reflexivity|]. now rewrite N.eqb_refl. Qed.

Lemma strip_prefix_inv (p s r : jsstring) : strip_prefix p s = Some r -> s = p ++ r.
Proof.
  revert s; induction p as [|a p IH]; intros s; simpl.
  - now intros [= ->].
  - destruct s as [|b s]; [easy|].
    destruct (a =? b) eqn:Hab; [|easy].
    apply N.eqb_eq in Hab; subst; intros H; f_equal; auto.
Qed.

Lemma trimStart_head (c : char16) (s : jsstring) :
  is_white_space c = false -> trimStart (c :: s) = c :: s.
Proof. intros H; simpl; now rewrite H. Qed.

Lemma trimEnd_last (s : jsstring) (c : char16) :
  is_white_space c = false -> trimEnd (s ++ [c]) = s ++ [c].
Proof.
  intros H; unfold trimEnd. rewrite rev_app_distr; simpl.
  rewrite H; simpl. now rewrite rev_involutive.
Qed.

Lemma trimEnd_space (s : jsstring) (c : char16) :
  is_white_space c = true -> trimEnd (s ++ [c]) = trimEnd s.
Proof.
  intros H; unfold trimEnd. rewrite rev_app_distr; simpl. now rewrite H.
Qed.

Lemma trimStart_space_end (s : jsstring) (c : char16) :
  is_white_space c = true ->
  trimStart (s ++ [c]) = match trimStart s with [] => [] | t => t ++ [c] end.
Proof.
  intros H; induction s as [|d s IH]; simpl.
  - now rewrite H.
  - destruct (is_white_space d); [exact IH | reflexivity].
Qed.

(** White space at the end of a text does not change its trimmed form. *)
Lemma trim_space_end (s : jsstring) (c : char16) :
  is_white_space c = true -> trim (s ++ [c]) = trim s.
Proof.
  intros H; unfold trim. rewrite trimStart_space_end by exact H.
  destruct (trimStart s) as [|d t]; [reflexivity|].
  change ((d :: t) ++ [c]) with ((d :: t) ++ [c]). now rewrite trimEnd_space.
Qed.

(** A text that neither starts nor ends with white space is its own
    trimmed form. *)
Lemma trim_fixed (c d : char16) (s : jsstring) :
  is_white_space c = false -> is_white_space d = false ->
  trim (c :: s ++ [d]) = c :: s ++ [d].
Proof.
  intros Hc Hd; unfold trim. rewrite trimStart_head by exact Hc.
  change (c :: s ++ [d]) with ((c :: s) ++ [d]). now apply trimEnd_last.
Qed.

End StringFacts.

Section PatternFacts.

Lemma strip_prefix_length (p s r : jsstring) :
  strip_prefix p s = Some r -> length s = (length p + length r)%nat.
Proof. intros H; apply strip_prefix_inv in H; subst; apply length_app. Qed.

Lemma optional_length (c : char16) (s : jsstring) :
  (length (optional c s) <= length s)%nat.
Proof. destruct s as [|d t]; simpl; [lia|]. destruct (d =? c); simpl; lia. Qed.

Lemma re_fence_open_consuming : consuming re_fence_open.
Proof.
  intros s r; unfold re_fence_open.
  destruct (strip_prefix (js "```jso") s) as [t|] eqn:H; [|easy].
  intros [= <-]. apply strip_prefix_length in H.
  pose proof (optional_length 110 t). pose proof (optional_length 10 (optional 110 t)).
  simpl in H. lia.
Qed.

Lemma re_fence_close_ws_consuming : consuming re_fence_close_ws.
Proof.
  intros s r; unfold re_fence_close_ws.
  destruct (strip_prefix (js "```") s) as [t|] eqn:H; [|easy].
  apply strip_prefix_length in H.
  destruct (forallb is_white_space t); [|easy]. intros [= <-]. simpl in *. lia.
Qed.

Lemma re_fence_close_consuming : consuming re_fence_close.
Proof.
  intros s r; unfold re_fence_close.
  destruct (strip_prefix (js "```") s) as [[|x t]|] eqn:H; try easy.
  apply strip_prefix_length in H. intros [= <-]. simpl in *. lia.
Qed.

Lemma strip_prefix_head (a c : char16) (p t : jsstring) :
  a <> c -> strip_prefix (a :: p) (c :: t) = None.
Proof. intros H; simpl. destruct (N.eqb_spec a c); [contradiction | reflexivity]. Qed.

Lemma re_fence_open_backtick_led : backtick_led re_fence_open.
Proof.
  intros c t Hc; unfold re_fence_open.
  change (js "```jso") with (96 :: js "``jso").
  rewrite strip_prefix_head; [reflexivity | congruence].
Qed.

Lemma re_fence_close_ws_backtick_led : backtick_led re_fence_close_ws.
Proof.
  intros c t Hc; unfold re_fence_close_ws.
  change (js "```") with (96 :: js "``").
  rewrite strip_prefix_head; [reflexivity | congruence].
Qed.

Lemma re_fence_close_backtick_led : backtick_led re_fence_close.
Proof.
  intros c t Hc; unfold re_fence_close.
  change (js "```") with (96 :: js "``").
  rewrite strip_prefix_head; [reflexivity | congruence].
Qed.

(** The scan never runs out of steps: any fuel from [length s] on gives
    the same result. *)
Lemma replace_all_from_enough (re : matcher) :
  consuming re ->
  forall n m s, (length s <= n)%nat -> (length s <= m)%nat ->
  replace_all_from n re s = replace_all_from m re s.
Proof.
  intros Hre; induction n as [|n IH]; intros m s Hn Hm.
  - destruct s; [|simpl in Hn; lia].
    destruct m; simpl; [reflexivity|].
    destruct (re []) eqn:H; [apply Hre in H; simpl in H; lia | reflexivity].
  - destruct m as [|m].
    + destruct s; [|simpl in Hm; lia]. simpl.
      destruct (re []) eqn:H; [apply Hre in H; simpl in H; lia | reflexivity].
    + simpl. destruct (re s) as [r|] eqn:H.
      * apply Hre in H. apply IH; lia.
      * destruct s as [|c t]; [reflexivity|]. simpl in *. f_equal. apply IH; lia.
Qed.

(** Where the pattern matches, the match is dropped and the scan goes on
    behind it. *)
Lemma replace_all_match (re : matcher) (s r : jsstring) :
  consuming re -> re s = Some r -> replace_all re s = replace_all re r.
Proof.
  intros Hre H; unfold replace_all. pose proof (Hre _ _ H) as Hlen.
  destruct s as [|c t]; [simpl in Hlen; lia|].
  simpl. rewrite H. apply replace_all_from_enough; [exact Hre| |]; simpl in *; lia.
Qed.

(** Where it does not, the code unit is kept. *)
Lemma replace_all_keep (re : matcher) (c : char16) (t : jsstring) :
  re (c :: t) = None -> replace_all re (c :: t) = c :: replace_all re t.
Proof. intros H; unfold replace_all; simpl. now rewrite H. Qed.

Lemma replace_all_nil (re : matcher) : replace_all re [] = [].
Proof. reflexivity. Qed.

(** A stretch without backticks is copied as it is. *)
Lemma replace_all_plain (re : matcher) (m s : jsstring) :
  backtick_led re -> no_backtick m ->
  replace_all re (m ++ s) = m ++ replace_all re s.
Proof.
  intros Hre; induction 1 as [|c m Hc _ IH]; simpl; [reflexivity|].
  rewrite replace_all_keep by (apply Hre; exact Hc). now rewrite IH.
Qed.

End PatternFacts.

(** ** The fence stripper *)

Section FenceFacts.

Context {E : Engine}.

Lemma no_backtick_app (a b : jsstring) :
  no_backtick a -> no_backtick b -> no_backtick (a ++ b).
Proof. intros Ha Hb; apply Forall_app; split; assumption. Qed.

Lemma no_backtick_LF : no_backtick LF.
Proof. repeat constructor; discriminate. Qed.

Lemma re_fence_close_of_consuming (ep : endpoint) : consuming (re_fence_close_of ep).
Proof.
  destruct ep; [apply re_fence_close_ws_consuming | apply re_fence_close_consuming].
Qed.

Lemma re_fence_close_of_backtick_led (ep : endpoint) : backtick_led (re_fence_close_of ep).
Proof.
  destruct ep; [apply re_fence_close_ws_backtick_led | apply re_fence_close_backtick_led].
Qed.

(** The closing pattern does not match at a fence that is followed by
    anything but white space up to the end. *)
Lemma re_fence_close_of_interior (ep : endpoint) (a : jsstring) :
  re_fence_close_of ep (fence ++ a ++ fence) = None.
Proof.
  assert (Hws : forallb is_white_space (a ++ fence) = false).
  { rewrite forallb_app. apply andb_false_intro2. reflexivity. }
  destruct ep; unfold re_fence_close_of, re_fence_close_ws, re_fence_close;
    change (js "```") with fence; rewrite strip_prefix_app.
  - now rewrite Hws.
  - destruct (a ++ fence) eqn:H; [discriminate Hws | reflexivity].
Qed.

Lemma replace_close_fence (ep : endpoint) : replace_all (re_fence_close_of ep) fence = [].
Proof. destruct ep; reflexivity. Qed.

(** A fenced text is its own trimmed form. *)
Lemma trim_fenced (s : jsstring) : trim (fence ++ s ++ fence) = fence ++ s ++ fence.
Proof.
  change (fence ++ s ++ fence) with (96 :: [96; 96] ++ s ++ [96; 96] ++ [96]).
  replace ([96; 96] ++ s ++ [96; 96] ++ [96]) with (([96; 96] ++ s ++ [96; 96]) ++ [96])
    by now rewrite <- !app_assoc.
  now apply trim_fixed.
Qed.

(** What is handed to [JSON.parse] for a text between a tagged opening
    fence and a closing fence. *)
Lemma jsonText_of_fenced (ep : endpoint) (inner : jsstring) :
  jsonText_of ep (fence_open_json ++ inner ++ fence)
  = trim (replace_all (re_fence_close_of ep) (replace_all re_fence_open (inner ++ fence))).
Proof.
  unfold jsonText_of.
  change (fence_open_json ++ inner ++ fence) with (fence ++ (js "json" ++ LF ++ inner) ++ fence).
  rewrite trim_fenced. unfold strip_fences, startsWith.
  change (js "```") with fence. rewrite strip_prefix_app.
  f_equal. f_equal.
  apply replace_all_match; [apply re_fence_open_consuming|].
  reflexivity.
Qed.

Lemma replace_open_tail (m : jsstring) :
  no_backtick m -> replace_all re_fence_open (m ++ LF ++ fence) = m ++ LF ++ fence.
Proof.
  intros Hm. rewrite app_assoc.
  rewrite replace_all_plain;
    [ | apply re_fence_open_backtick_led | apply no_backtick_app; [exact Hm | apply no_backtick_LF] ].
  change (replace_all re_fence_open fence) with fence.
  now rewrite <- app_assoc.
Qed.

Lemma replace_close_tail (ep : endpoint) (m : jsstring) :
  no_backtick m -> replace_all (re_fence_close_of ep) (m ++ LF ++ fence) = m ++ LF.
Proof.
  intros Hm. rewrite app_assoc.
  rewrite replace_all_plain;
    [ | apply re_fence_close_of_backtick_led | apply no_backtick_app; [exact Hm | apply no_backtick_LF] ].
  now rewrite replace_close_fence, app_nil_r.
Qed.

(** The one opening and the one closing fence line are removed. *)
Lemma jsonText_of_wrapped (ep : endpoint) (m : jsstring) :
  no_backtick m ->
  jsonText_of ep (fence_open_json ++ m ++ LF ++ fence) = trim m.
Proof.
  intros Hm.
  replace (fence_open_json ++ m ++ LF ++ fence) with (fence_open_json ++ (m ++ LF) ++ fence)
    by now rewrite <- !app_assoc.
  rewrite jsonText_of_fenced, <- app_assoc.
  rewrite replace_open_tail, replace_close_tail by exact Hm.
  now apply trim_space_end.
Qed.

(** A tagged opening fence line in the interior is removed as well. *)
Lemma jsonText_of_tagged_inside (ep : endpoint) (m1 m2 : jsstring) :
  no_backtick m1 -> no_backtick m2 ->
  jsonText_of ep (fence_open_json ++ m1 ++ fence_open_json ++ m2 ++ LF ++ fence)
  = trim (m1 ++ m2).
Proof.
  intros H1 H2.
  replace (fence_open_json ++ m1 ++ fence_open_json ++ m2 ++ LF ++ fence)
    with (fence_open_json ++ (m1 ++ fence_open_json ++ m2 ++ LF) ++ fence)
    by now rewrite <- !app_assoc.
  rewrite jsonText_of_fenced, <- !app_assoc.
  rewrite replace_all_plain by (apply re_fence_open_backtick_led || exact H1).
  rewrite (replace_all_match re_fence_open (fence_open_json ++ m2 ++ LF ++ fence) (m2 ++ LF ++ fence))
    by (apply re_fence_open_consuming || reflexivity).
  rewrite replace_open_tail by exact H2.
  rewrite app_assoc, replace_close_tail by (apply no_backtick_app; assumption).
  now apply trim_space_end.
Qed.

(** A bare fence line in the interior stays. *)
Lemma jsonText_of_bare_inside (ep : endpoint) (m1 m2 : jsstring) :
  no_backtick m1 -> no_backtick m2 ->
  jsonText_of ep (fence_open_json ++ m1 ++ fence_open_bare ++ m2 ++ LF ++ fence)
  = trim (m1 ++ fence_open_bare ++ m2).
Proof.
  intros H1 H2.
  replace (fence_open_json ++ m1 ++ fence_open_bare ++ m2 ++ LF ++ fence)
    with (fence_open_json ++ (m1 ++ fence_open_bare ++ m2 ++ LF) ++ fence)
    by now rewrite <- !app_assoc.
  rewrite jsonText_of_fenced, <- !app_assoc.
  assert (Hopen : replace_all re_fence_open (m1 ++ fence_open_bare ++ m2 ++ LF ++ fence)
                  = m1 ++ fence_open_bare ++ m2 ++ LF ++ fence).
  { rewrite replace_all_plain by (apply re_fence_open_backtick_led || exact H1).
    f_equal. change (fence_open_bare ++ m2 ++ LF ++ fence)
      with (96 :: 96 :: 96 :: 10 :: m2 ++ LF ++ fence).
    rewrite !replace_all_keep by reflexivity.
    now rewrite replace_open_tail. }
  rewrite Hopen.
  rewrite replace_all_plain by (apply re_fence_close_of_backtick_led || exact H1).
  pose proof (re_fence_close_of_interior ep (LF ++ m2 ++ LF)) as Hin.
  rewrite <- !app_assoc in Hin.
  change (fence ++ LF ++ m2 ++ LF ++ fence)
    with (96 :: 96 :: 96 :: 10 :: m2 ++ LF ++ fence) in Hin.
  change (fence_open_bare ++ m2 ++ LF ++ fence) with (96 :: 96 :: 96 :: 10 :: m2 ++ LF ++ fence).
  rewrite !replace_all_keep by (exact Hin || (destruct ep; reflexivity)).
  rewrite replace_close_tail by exact H2.
  rewrite <- (trim_space_end (m1 ++ fence_open_bare ++ m2) 10) by reflexivity.
  f_equal. now rewrite <- !app_assoc.
Qed.

End FenceFacts.

(** ** The response normalizer *)

Section NormalizerFacts.

Context {E : Engine}.

Lemma RawFallback_shape (raw : JSON) :
  status (RawFallback (Some raw)) = 200
  /\ member_of (RawFallback (Some raw)) "raw" = Some raw
  /\ member_of (RawFallback (Some raw)) "parsed" = Some JNull
  /\ variants_of (RawFallback (Some raw)) = [raw_fallback].
Proof. repeat split. Qed.

Lemma Structured_shape (parsedData : JSON) :
  status (Structured parsedData) = 200
  /\ member_of (Structured parsedData) "parsed" = Some parsedData
  /\ variants_of (Structured parsedData) = [structured].
Proof. repeat split. Qed.

End NormalizerFacts.

(** C4.  A reply whose trimmed text does not begin with a fence and is
    valid JSON comes back as [Structured] carrying exactly the value
    [JSON.parse] gives for that text: nothing is validated, nothing is
    changed. *)
Theorem normalize_fence_free_json
  (E : Engine) (ep : endpoint) (text : jsstring) (parsedData : JSON) :
  startsWith (trim text) (js "```") = false ->
  JSON_parse (trim text) = Ok parsedData ->
  normalize ep (str text) = Structured parsedData
  /\ member_of (normalize ep (str text)) "parsed" = Some parsedData.
Proof.
  intros Hfence Hparse.
  assert (H : normalize ep (str text) = Structured parsedData).
  { unfold normalize, str, jsonText_of, strip_fences. now rewrite Hfence, Hparse. }
  split; [exact H | now rewrite H].
Qed.

Lemma normalize_fence_free_json_witness :
  @normalize Reference.engine (analyze analyze_js) (str (jsq " {'a':1} " ++ LF))
  = @Structured Reference.engine (JObject [(js "a", Reference.int 1)]).
Proof.
  apply (@normalize_fence_free_json Reference.engine); reflexivity.
Defined.

(** C5.  A reply whose text, after the optional fence stripping, is not
    valid JSON comes back as [RawFallback], a response with status 200 and
    no error: [raw] is the reply text as it came (not trimmed, fences in
    place) and [parsed] is null.  The empty reply is such a text: it is
    handed to [JSON.parse] as the empty text, which is no JSON. *)
Theorem normalize_unparsable_falls_back
  (E : Engine) (ep : endpoint) (text : jsstring) (e : Error) :
  JSON_parse (jsonText_of ep text) = Throw e ->
  normalize ep (str text) = RawFallback (str text)
  /\ status (normalize ep (str text)) = 200
  /\ member_of (normalize ep (str text)) "raw" = str text
  /\ member_of (normalize ep (str text)) "parsed" = Some JNull
  /\ variants_of (normalize ep (str text)) = [raw_fallback]
  /\ (forall e0, JSON_parse [] = Throw e0 ->
      normalize ep (str []) = RawFallback (str [])).
Proof.
  intros Hparse.
  assert (H : normalize ep (str text) = RawFallback (str text)).
  { unfold normalize, str. now rewrite Hparse. }
  rewrite H. repeat split.
  intros e0 H0. unfold normalize, str.
  change (jsonText_of ep []) with (@nil char16). now rewrite H0.
Qed.

Lemma normalize_unparsable_falls_back_witness :
  @normalize Reference.engine (analyze analyze_js) (str [])
  = @RawFallback Reference.engine (str []).
Proof.
  apply (@normalize_unparsable_falls_back
           Reference.engine (analyze analyze_js) [] Reference.syntax_error).
  reflexivity.
Defined.

(** C1.  A reply between a [```json] fence line and a closing fence is
    stripped and parsed; a reply between a bare [```] fence line and a
    closing fence is not: the opening pattern needs the letters [jso]
    behind the backticks, so the opening fence stays, [JSON.parse] fails
    and the reply comes back as [RawFallback]. *)
Theorem normalize_fenced_replies (ep : endpoint) :
  @normalize Reference.engine ep
    (str (js "```json" ++ LF ++ jsq "{'a':1}" ++ LF ++ js "```"))
  = @Structured Reference.engine (JObject [(js "a", Reference.int 1)])
  /\ @normalize Reference.engine ep
       (str (js "```" ++ LF ++ jsq "{'a':1}" ++ LF ++ js "```"))
     = @RawFallback Reference.engine (str (js "```" ++ LF ++ jsq "{'a':1}" ++ LF ++ js "```"))
  /\ jsonText_of ep (js "```" ++ LF ++ jsq "{'a':1}" ++ LF ++ js "```")
     = js "```" ++ LF ++ jsq "{'a':1}".
Proof. destruct ep as [[]|]; repeat split. Qed.

Section UntaggedFence.

Context {E : Engine}.

Lemma trimStart_keeps_last (l : jsstring) (c : char16) :
  is_white_space c = false -> exists l', trimStart (l ++ [c]) = l' ++ [c].
Proof.
  intros Hc; induction l as [|d l IH]; simpl.
  - rewrite Hc. now exists [].
  - destruct (is_white_space d); [exact IH | now exists (d :: l)].
Qed.

Lemma trim_keeps_head (c : char16) (s : jsstring) :
  is_white_space c = false -> exists s', trim (c :: s) = c :: s'.
Proof.
  intros Hc. unfold trim. rewrite trimStart_head by exact Hc.
  unfold trimEnd. simpl rev.
  destruct (trimStart_keeps_last (rev s) c Hc) as [l' ->].
  rewrite rev_app_distr. now exists (rev l').
Qed.

Lemma re_fence_close_of_rest (ep : endpoint) (s r : jsstring) :
  re_fence_close_of ep s = Some r -> r = [].
Proof.
  destruct ep; unfold re_fence_close_of, re_fence_close_ws, re_fence_close;
    destruct (strip_prefix (js "```") s) as [t|]; try discriminate.
  - destruct (forallb is_white_space t); now intros [= <-].
  - destruct t; now intros [= <-].
Qed.

(** The defect behind C1 in general: whenever the trimmed reply begins
    with a fence that is not followed by [jso], the opening fence is still
    there (or nothing is left at all) when [JSON.parse] is called, and the
    reply comes back as [RawFallback]; no JSON text is empty or begins
    with a backtick. *)
Lemma untagged_fence_falls_back (ep : endpoint) (text : jsstring) :
  (exists e, JSON_parse [] = Throw e) ->
  (forall s, exists e, JSON_parse (96 :: s) = Throw e) ->
  startsWith (trim text) fence = true ->
  startsWith (trim text) (js "```jso") = false ->
  normalize ep (str text) = RawFallback (str text).
Proof.
  intros [e0 Hnil] Htick Hfence Htag.
  assert (Hparse : exists e, JSON_parse (jsonText_of ep text) = Throw e).
  { unfold jsonText_of, strip_fences. change (js "```") with fence. rewrite Hfence.
    unfold startsWith in Hfence, Htag.
    destruct (strip_prefix fence (trim text)) as [r|] eqn:Hr; [|discriminate].
    apply strip_prefix_inv in Hr. rewrite Hr in *.
    change (fence ++ r) with (96 :: 96 :: 96 :: r) in *.
    rewrite (replace_all_keep re_fence_open)
      by (unfold re_fence_open; destruct (strip_prefix _ _); [discriminate | reflexivity]).
    match goal with
    | |- context [trim (replace_all ?re ?x)] => destruct (re x) as [rest|] eqn:Hc
    end.
    - pose proof (re_fence_close_of_rest _ _ _ Hc); subst rest.
      rewrite (replace_all_match _ _ [] (re_fence_close_of_consuming ep) Hc).
      now exists e0.
    - rewrite (replace_all_keep _ _ _ Hc).
      match goal with
      | |- context [trim (96 :: ?z)] =>
          destruct (trim_keeps_head 96 z eq_refl) as [s' ->]
      end.
      apply Htick. }
  destruct Hparse as [e He]. unfold normalize, str. now rewrite He.
Qed.

End UntaggedFence.

(** C3, as stated, fails: a tagged fence marker in the interior of a
    fenced reply (here inside a JSON string) is removed as well, so what
    is parsed is not the enclosed text. *)
Lemma interior_tagged_fence_is_removed :
  jsonText_of (analyze analyze_js)
    (js "```json" ++ LF ++ jsq "['" ++ js "```json" ++ jsq "']" ++ LF ++ js "```")
  = jsq "['']"
  /\ jsq "['']" <> trim (jsq "['" ++ js "```json" ++ jsq "']")
  /\ @normalize Reference.engine (analyze analyze_js)
       (str (js "```json" ++ LF ++ jsq "['" ++ js "```json" ++ jsq "']" ++ LF ++ js "```"))
     = @Structured Reference.engine (JArray [JString []])
  /\ Reference.parse (jsq "['" ++ js "```json" ++ jsq "']")
     = Ok (JArray [JString (js "```json")]).
Proof. repeat split. discriminate. Qed.

(** C3, amended.  Around text without backticks: the opening [```json]
    line and the closing fence are removed; a further [```json] line in
    the interior is removed too (the opening pattern is global); a bare
    [```] line in the interior stays (the closing pattern is anchored at
    the end of the text). *)
Theorem fence_stripping_scope (ep : endpoint) (m1 m2 : jsstring) :
  no_backtick m1 -> no_backtick m2 ->
  jsonText_of ep (fence_open_json ++ m1 ++ LF ++ fence) = trim m1
  /\ jsonText_of ep (fence_open_json ++ m1 ++ fence_open_json ++ m2 ++ LF ++ fence)
     = trim (m1 ++ m2)
  /\ jsonText_of ep (fence_open_json ++ m1 ++ fence_open_bare ++ m2 ++ LF ++ fence)
     = trim (m1 ++ fence_open_bare ++ m2).
Proof.
  intros H1 H2. repeat split.
  - now apply jsonText_of_wrapped.
  - now apply jsonText_of_tagged_inside.
  - now apply jsonText_of_bare_inside.
Qed.

Lemma fence_stripping_scope_witness :
  jsonText_of part_001 (fence_open_json ++ jsq "[1," ++ LF ++ fence) = trim (jsq "[1,")
  /\ jsonText_of part_001
       (fence_open_json ++ jsq "[1," ++ fence_open_json ++ jsq "2]" ++ LF ++ fence)
     = trim (jsq "[1," ++ jsq "2]")
  /\ jsonText_of part_001
       (fence_open_json ++ jsq "[1," ++ fence_open_bare ++ jsq "2]" ++ LF ++ fence)
     = trim (jsq "[1," ++ fence_open_bare ++ jsq "2]").
Proof.
  apply fence_stripping_scope; repeat constructor; discriminate.
Defined.

(** ** The handler *)

Lemma json_eq_null {number : Type} (v : json number) : {v = JNull} + {v <> JNull}.
Proof. destruct v; (now left) || (right; discriminate). Defined.

Section HandlerFacts.

Context {E : Engine} {P : Prompts}.

(** Behind the method check. *)
Lemma handler_post (ep : endpoint) (env : environment) (w : world) (req : request) :
  method req = js "POST" ->
  handler ep env w req
  = match env (api_key_name ep) with
    | None | Some [] => finish [] (MissingCredential ep)
    | Some apiKey =>
        match try_block ep apiKey w (req_body req) with
        | (made, Ok r) => finish made r
        | (made, Throw error) => finish made (InternalFailure error)
        end
    end.
Proof. intros H; unfold handler; rewrite H; reflexivity. Qed.

(** Behind the credential check. *)
Lemma handler_with_credential
  (ep : endpoint) (env : environment) (w : world) (req : request) (apiKey : jsstring) :
  method req = js "POST" ->
  env (api_key_name ep) = Some apiKey -> apiKey <> [] ->
  handler ep env w req
  = match try_block ep apiKey w (req_body req) with
    | (made, Ok r) => finish made r
    | (made, Throw error) => finish made (InternalFailure error)
    end.
Proof.
  intros Hm Hk Hne. rewrite handler_post by exact Hm. rewrite Hk.
  destruct apiKey; [contradiction | reflexivity].
Qed.

Lemma try_block_body
  (ep : endpoint) (apiKey : jsstring) (w : world) (body : JSON) :
  body <> JNull ->
  try_block ep apiKey w (Some body)
  = match plan ep w body with
    | Throw e => ([], Throw e)
    | Ok (inl early) => ([], Ok early)
    | Ok (inr (systemPrompt, msgs)) =>
        ([call_Claude apiKey systemPrompt msgs],
         after_fetch ep (fetch w (call_Claude apiKey systemPrompt msgs)))
    end.
Proof. intros H; destruct body; try reflexivity; contradiction. Qed.

(** A call is made only behind all the checks, and it is the one call
    the plan asks for. *)
Lemma handler_calls_inv
  (ep : endpoint) (env : environment) (w : world) (req : request) (call : outbound) :
  In call (calls (handler ep env w req)) ->
  exists apiKey body systemPrompt msgs,
    env (api_key_name ep) = Some apiKey
    /\ req_body req = Some body
    /\ plan ep w body = Ok (inr (systemPrompt, msgs))
    /\ call = call_Claude apiKey systemPrompt msgs
    /\ calls (handler ep env w req) = [call].
Proof.
  unfold handler.
  destruct (eqb (method req) (js "OPTIONS")); [intros []|].
  destruct (negb (eqb (method req) (js "POST"))); [intros []|].
  destruct (env (api_key_name ep)) as [[|k0 k]|] eqn:Hk; try (intros []).
  destruct (req_body req) as [body|] eqn:Hb; [|intros []].
  destruct (json_eq_null body) as [->|Hnull]; [intros []|].
  rewrite try_block_body by exact Hnull.
  destruct (plan ep w body) as [[early|[sys msgs]]|e] eqn:Hp; try (intros []).
  intros Hin.
  assert (Hc : call = call_Claude (k0 :: k) sys msgs).
  { destruct (after_fetch _ _); simpl in Hin; destruct Hin as [<-|[]]; reflexivity. }
  exists (k0 :: k), body, sys, msgs. repeat split; try assumption.
  subst call. destruct (after_fetch _ _); reflexivity.
Qed.

(** When the provider answers with a success status and a JSON body
    whose [content] holds a text block, the response is what the
    normalizer makes of the text of the first such block. *)
Lemma handler_normalizes
  (ep : endpoint) (env : environment) (w : world) (req : request)
  (apiKey : jsstring) (body : JSON) (systemPrompt : jsstring) (msgs : list message)
  (st : N) (answer : jsstring) (data c : JSON) :
  method req = js "POST" ->
  env (api_key_name ep) = Some apiKey -> apiKey <> [] ->
  req_body req = Some body -> body <> JNull ->
  plan ep w body = Ok (inr (systemPrompt, msgs)) ->
  fetch w (call_Claude apiKey systemPrompt msgs) = Resolved st (Ok answer) ->
  ok st = true ->
  JSON_parse answer = Ok data ->
  textContent_of data = Ok (Some c) ->
  handler ep env w req
  = finish [call_Claude apiKey systemPrompt msgs] (normalize ep (get_own c (js "text"))).
Proof.
  intros Hm Hk Hne Hb Hnull Hp Hf Hok Hd Hc.
  rewrite (handler_with_credential _ _ _ _ apiKey) by assumption.
  rewrite Hb, try_block_body, Hp by exact Hnull.
  unfold after_fetch. rewrite Hf, Hok. cbn [negb bind]. rewrite Hd. cbn [bind].
  now rewrite Hc.
Qed.

End HandlerFacts.

Section GatewayFacts.

Context {E : Engine} {P : Prompts}.

Lemma build_prompts_unrecognised (f : analyze_file) (w : world) (body : JSON) :
  recognised body = false -> build_prompts f w body = Ok None.
Proof.
  unfold recognised, build_prompts; intros H.
  apply orb_false_iff in H as [H Ht]. rewrite H, Ht. reflexivity.
Qed.

Lemma build_prompts_recognised (f : analyze_file) (w : world) (body : JSON) :
  recognised body = true -> build_prompts f w body <> Ok None.
Proof.
  unfold recognised, build_prompts; intros H.
  destruct (is_string (field body "parseType") "email"
            || is_string (field body "parseType") "message").
  - destruct (email_system f w body); [|discriminate]. simpl.
    destruct (existingShips_note f (field body "existingShips")); discriminate.
  - simpl in H. rewrite H.
    destruct (ToString (field body "content")); discriminate.
Qed.

Lemma build_messages_nothing (body : JSON) (userPrompt : value) :
  truthy (field body "content") = false ->
  truthy (field body "imageBase64") = false ->
  build_messages body userPrompt = None.
Proof. intros Hc Hi; unfold build_messages. now rewrite Hi, Hc. Qed.

Lemma build_messages_image (body : JSON) (userPrompt : value) :
  truthy (field body "imageBase64") = true ->
  build_messages body userPrompt
  = Some [ {| role := js "user";
              content := blocks
                [ image_block (or_else (field body "mimeType") (JString (js "image/jpeg")))
                              (field body "imageBase64");
                  text_block (or_else userPrompt image_text_default) ] |} ].
Proof. intros Hi; unfold build_messages. now rewrite Hi. Qed.

Ltac failure_variant Hst :=
  match type of Hst with
  | ok ?st = false =>
      let H200 := fresh in
      assert (H200 : (st =? 200) = false)
        by (destruct (N.eqb_spec st 200) as [->|]; [discriminate Hst | reflexivity]);
      unfold variants_of, is_structured, is_raw_fallback, is_failure;
      cbn [status Failure UpstreamFailure InternalFailure];
      rewrite H200, Hst; reflexivity
  end.

Lemma Failure_is_failure (st : N) (error : jsstring) :
  ok st = false -> variants_of (Failure st error []) = [failure].
Proof. intros Hst. failure_variant Hst. Qed.

Lemma UpstreamFailure_is_failure (ep : endpoint) (st : N) (errorData : jsstring) :
  ok st = false -> variants_of (UpstreamFailure ep st errorData) = [failure].
Proof. intros Hst. failure_variant Hst. Qed.

Lemma InternalFailure_is_failure (e : Error) :
  variants_of (InternalFailure e) = [failure].
Proof. reflexivity. Qed.

End GatewayFacts.

(** C6, as stated, fails: without the credential a request that is not
    a POST is answered by the method check, which comes first. *)
Lemma missing_credential_not_post :
  responses (@handler Reference.engine Reference.prompts (analyze analyze_js)
               Reference.no_key Reference.offline
               {| method := js "GET"; req_body := None |})
  = [@MethodNotAllowed Reference.engine]
  /\ status (@MethodNotAllowed Reference.engine) = 405
  /\ responses (@handler Reference.engine Reference.prompts (analyze analyze_js)
                  Reference.no_key Reference.offline
                  {| method := js "GET"; req_body := None |})
     <> [MissingCredential (analyze analyze_js)].
Proof. repeat split. discriminate. Qed.

(** C6, amended.  When the provider credential is absent from the
    process environment (or empty), every POST request is answered by the
    MissingCredential failure, with status 500, whatever its body: the
    body is not read and no outbound call is made. *)
Theorem missing_credential_rejects_every_post
  (E : Engine) (P : Prompts) (ep : endpoint) (env : environment) (w : world)
  (req : request) :
  method req = js "POST" ->
  env (api_key_name ep) = None \/ env (api_key_name ep) = Some [] ->
  handler ep env w req = finish [] (MissingCredential ep)
  /\ responses (handler ep env w req) = [MissingCredential ep]
  /\ calls (handler ep env w req) = []
  /\ status (MissingCredential ep) = 500
  /\ variants_of (MissingCredential ep) = [failure].
Proof.
  intros Hm Hk.
  assert (H : handler ep env w req = finish [] (MissingCredential ep)).
  { rewrite handler_post by exact Hm. destruct Hk as [-> | ->]; reflexivity. }
  rewrite H. repeat split.
Qed.

Lemma missing_credential_rejects_every_post_witness :
  @handler Reference.engine Reference.prompts part_001 Reference.no_key Reference.offline
    (Reference.post [("type", JString (js "text")); ("content", JString (js "MV TEST"))]%string)
  = finish [] (MissingCredential part_001).
Proof.
  apply (@missing_credential_rejects_every_post Reference.engine Reference.prompts);
    [reflexivity | left; reflexivity].
Defined.

(** C2, as stated, fails: a body without content and image whose
    [parseType] is not recognised is answered by the InvalidMode failure,
    not by MissingContent; and where it is answered by MissingContent,
    both prompts have been assembled by then. *)
Lemma missing_content_unknown_mode :
  responses (@handler Reference.engine Reference.prompts (analyze analyze_js)
               (Reference.with_key (js "sk-test")) Reference.offline
               (Reference.post [("parseType", JString (js "pdf"))]%string))
  = [@InvalidMode Reference.engine]
  /\ @InvalidMode Reference.engine <> MissingContent (analyze analyze_js)
  /\ responses (@handler Reference.engine Reference.prompts (analyze analyze_js)
                  (Reference.with_key (js "sk-test")) Reference.offline
                  (Reference.post [("parseType", JString (js "tally"))]%string))
     = [MissingContent (analyze analyze_js)]
  /\ @build_prompts Reference.engine Reference.prompts analyze_js Reference.offline
       (JObject [(js "parseType", JString (js "tally"))])
     = Ok (Some (@analyze_js_tally_system Reference.prompts,
                 str (js "Analyze this tally/discharge report:" ++ LF ++ LF
                      ++ js "undefined"))).
Proof. repeat split. discriminate. Qed.

(** C2, amended.  For a POST request with the credential configured
    whose body lacks both [content] and [imageBase64] (absent or falsy):
    when [parseType] is not recognised the response is the InvalidMode
    failure; when it is, the prompts are assembled first and, unless that
    raises an exception, the response is the MissingContent failure.  Both
    have status 400, and no outbound call is made. *)
Theorem missing_content_rejected
  (E : Engine) (P : Prompts) (f : analyze_file) (env : environment) (w : world)
  (req : request) (apiKey : jsstring) (body : JSON) :
  method req = js "POST" ->
  env (api_key_name (analyze f)) = Some apiKey -> apiKey <> [] ->
  req_body req = Some body -> body <> JNull ->
  truthy (field body "content") = false ->
  truthy (field body "imageBase64") = false ->
  (recognised body = false ->
     handler (analyze f) env w req = finish [] InvalidMode)
  /\ (recognised body = true ->
      (exists systemPrompt userPrompt,
         build_prompts f w body = Ok (Some (systemPrompt, userPrompt))
         /\ handler (analyze f) env w req = finish [] (MissingContent (analyze f)))
      \/ (exists e,
            build_prompts f w body = Throw e
            /\ handler (analyze f) env w req = finish [] (InternalFailure e)))
  /\ calls (handler (analyze f) env w req) = []
  /\ status (MissingContent (analyze f)) = 400
  /\ status InvalidMode = 400.
Proof.
  intros Hm Hk Hne Hb Hnull Hc Hi.
  assert (H : handler (analyze f) env w req
              = match build_prompts f w body with
                | Ok None => finish [] InvalidMode
                | Ok (Some _) => finish [] (MissingContent (analyze f))
                | Throw e => finish [] (InternalFailure e)
                end).
  { rewrite (handler_with_credential _ _ _ _ apiKey) by assumption.
    rewrite Hb, try_block_body by exact Hnull. unfold plan.
    destruct (build_prompts f w body) as [[[sys up]|]|e]; simpl; try reflexivity.
    now rewrite build_messages_nothing. }
  repeat split.
  - intros Hr. now rewrite H, build_prompts_unrecognised.
  - intros Hr. pose proof (build_prompts_recognised f w body Hr) as Hn.
    destruct (build_prompts f w body) as [[[sys up]|]|e].
    + left. now exists sys, up.
    + contradiction.
    + right. now exists e.
  - rewrite H. destruct (build_prompts f w body) as [[|]|]; reflexivity.
Qed.

Lemma missing_content_rejected_witness :
  @handler Reference.engine Reference.prompts (analyze part_002)
    (Reference.with_key (js "sk-test")) Reference.offline
    (Reference.post [("parseType", JString (js "tally")); ("content", JString [])]%string)
  = finish [] (MissingContent (analyze part_002)).
Proof.
  pose proof (@missing_content_rejected Reference.engine Reference.prompts part_002
              (Reference.with_key (js "sk-test")) Reference.offline
              (Reference.post [("parseType", JString (js "tally")); ("content", JString [])]%string)
              (js "sk-test")
              (JObject [(js "parseType", JString (js "tally")); (js "content", JString [])])
              eq_refl eq_refl ltac:(discriminate) eq_refl ltac:(discriminate) eq_refl eq_refl)
    as (_ & H & _).
  destruct (H eq_refl) as [(sys & up & _ & Hh) | (e & He & _)];
    [exact Hh | discriminate He].
Defined.

Section OutcomeFacts.

Context {E : Engine} {P : Prompts}.



Lemma plan_early (ep : endpoint) (w : world) (body : JSON) (early : response) :
  plan ep w body = Ok (inl early) ->
  early = InvalidMode \/ early = MissingContent ep.
Proof.
  unfold plan. destruct ep as [f|].
  - destruct (build_prompts f w body) as [[[sys up]|]|e]; cbn [bind]; [| |discriminate].
    + destruct (build_messages body up); intros [= <-]. now right.
    + intros [= <-]. now left.
  - destruct (part_001_messages body) as [[msgs|]|e]; cbn [bind]; [| |discriminate].
    + discriminate.
    + intros [= <-]. now right.
Qed.


Lemma plan_analyze_inv
  (f : analyze_file) (w : world) (body : JSON) (sys : jsstring) (msgs : list message) :
  plan (analyze f) w body = Ok (inr (sys, msgs)) ->
  exists userPrompt,
    build_prompts f w body = Ok (Some (sys, userPrompt))
    /\ build_messages body userPrompt = Some msgs.
Proof.
  unfold plan.
  destruct (build_prompts f w body) as [[[sys' up]|]|e]; cbn [bind]; try discriminate.
  destruct (build_messages body up) eqn:Hm; intros [= <- <-]. now exists up.
Qed.

(** The user prompt embeds the content: it is the content itself in the
    email and message modes, and the tally instruction followed by the
    content in the tally mode. *)
Lemma build_prompts_user
  (f : analyze_file) (w : world) (body : JSON) (sys : jsstring) (userPrompt : value) :
  build_prompts f w body = Ok (Some (sys, userPrompt)) ->
  if is_string (field body "parseType") "tally"
  then exists c, ToString (field body "content") = Ok c
                 /\ userPrompt = str (tally_user_intro f ++ c)
  else userPrompt = field body "content".
Proof.
  unfold build_prompts.
  destruct (field body "parseType") as [[| | |pt| |]|]; cbn [is_string orb];
    try discriminate.
  destruct (eqb pt (js "email")) eqn:He.
  - apply eqb_eq in He; subst pt. cbn.
    destruct (email_system f w body); [|discriminate]. cbn [bind].
    destruct (existingShips_note f (field body "existingShips")); [|discriminate].
    now intros [= _ <-].
  - destruct (eqb pt (js "message")) eqn:Hm.
    + apply eqb_eq in Hm; subst pt. cbn.
      destruct (email_system f w body); [|discriminate]. cbn [bind].
      destruct (existingShips_note f (field body "existingShips")); [|discriminate].
      now intros [= _ <-].
    + cbn [orb]. destruct (eqb pt (js "tally")); [|discriminate].
      destruct (ToString (field body "content")) as [c|]; [|discriminate].
      cbn [bind]. intros [= _ <-]. now exists c.
Qed.

Lemma tally_user_prompt_truthy (f : analyze_file) (c : jsstring) :
  or_else (str (tally_user_intro f ++ c)) image_text_default
  = JString (tally_user_intro f ++ c).
Proof. destruct f; reflexivity. Qed.

End OutcomeFacts.

(** C7, as stated, fails: not every transport-level failure surfaces the
    upstream status and body.  When the provider answers with status 503
    and the body of the answer cannot be read, [await response.text()]
    throws into the outer [catch]: the response has status 500 and holds
    [error] and the [message] of the exception, and neither the status 503
    nor any [details].  A rejected [fetch] has no upstream status or body
    at all, and is answered the same way. *)
Lemma upstream_status_not_surfaced :
  responses (@handler Reference.engine Reference.prompts (analyze analyze_js)
               (Reference.with_key (js "sk-test"))
               (Reference.answering (Resolved 503 (Throw (js "terminated"))))
               (Reference.post [("parseType", JString (js "tally"));
                                ("content", JString (js "MV TEST 500 MT"))]%string))
  = [ {| status := 500;
         body := Some [ (js "error", JString (js "Server error"));
                        (js "message", JString (js "terminated")) ] |} ]
  /\ ok 503 = false
  /\ calls (@handler Reference.engine Reference.prompts (analyze analyze_js)
              (Reference.with_key (js "sk-test"))
              (Reference.answering (Resolved 503 (Throw (js "terminated"))))
              (Reference.post [("parseType", JString (js "tally"));
                               ("content", JString (js "MV TEST 500 MT"))]%string))
     = [ call_Claude (js "sk-test") (@tally_system Reference.prompts analyze_js)
           [ {| role := js "user";
                content := plain (str (tally_user_intro analyze_js
                                       ++ js "MV TEST 500 MT")) |} ] ]
  /\ responses (@handler Reference.engine Reference.prompts (analyze analyze_js)
                  (Reference.with_key (js "sk-test")) Reference.offline
                  (Reference.post [("parseType", JString (js "tally"));
                                   ("content", JString (js "MV TEST 500 MT"))]%string))
     = [ {| status := 500;
            body := Some [ (js "error", JString (js "Server error"));
                           (js "message", JString (js "fetch failed")) ] |} ].
Proof. repeat split. Qed.

(** C7, amended.  Once the outbound call is made, each transport-level
    failure ends in one structured failure response and no exception
    leaves the handler.  A non-success upstream status whose body can be
    read is passed on as the status of the response, with the upstream
    body as [details].  A network error ([fetch] rejects) and an answer
    whose body cannot be read, whatever its status, are caught at the
    handler boundary and answered with status 500, ['Server error'] and
    the error's message; the upstream status is not surfaced there. *)
Theorem transport_failures_are_reported
  (E : Engine) (P : Prompts) (ep : endpoint) (env : environment) (w : world)
  (req : request) (apiKey : jsstring) (body : JSON)
  (systemPrompt : jsstring) (msgs : list message) :
  method req = js "POST" ->
  env (api_key_name ep) = Some apiKey -> apiKey <> [] ->
  req_body req = Some body -> body <> JNull ->
  plan ep w body = Ok (inr (systemPrompt, msgs)) ->
  (forall st errorData,
     fetch w (call_Claude apiKey systemPrompt msgs) = Resolved st (Ok errorData) ->
     ok st = false ->
     handler ep env w req
     = finish [call_Claude apiKey systemPrompt msgs] (UpstreamFailure ep st errorData)
     /\ status (UpstreamFailure ep st errorData) = st
     /\ member_of (UpstreamFailure ep st errorData) "details" = str errorData
     /\ variants_of (UpstreamFailure ep st errorData) = [failure])
  /\ (forall e,
        fetch w (call_Claude apiKey systemPrompt msgs) = Rejected e
        \/ (exists st, fetch w (call_Claude apiKey systemPrompt msgs) = Resolved st (Throw e)) ->
        handler ep env w req
        = finish [call_Claude apiKey systemPrompt msgs] (InternalFailure e)
        /\ status (InternalFailure e) = 500
        /\ member_of (InternalFailure e) "message" = str e
        /\ variants_of (InternalFailure e) = [failure]).
Proof.
  intros Hm Hk Hne Hb Hnull Hp.
  assert (H : handler ep env w req
              = match after_fetch ep (fetch w (call_Claude apiKey systemPrompt msgs)) with
                | Ok r => finish [call_Claude apiKey systemPrompt msgs] r
                | Throw e =>
                    finish [call_Claude apiKey systemPrompt msgs] (InternalFailure e)
                end).
  { rewrite (handler_with_credential _ _ _ _ apiKey) by assumption.
    now rewrite Hb, try_block_body, Hp by exact Hnull. }
  split.
  - intros st errorData Hf Hok. rewrite H, Hf. unfold after_fetch. rewrite Hok.
    repeat split. now apply UpstreamFailure_is_failure.
  - intros e [Hf | [st Hf]]; rewrite H, Hf; unfold after_fetch.
    + repeat split.
    + destruct (ok st); repeat split.
Qed.

Lemma transport_failures_are_reported_witness :
  @handler Reference.engine Reference.prompts (analyze analyze_js)
    (Reference.with_key (js "sk-test"))
    (Reference.answering (Resolved 529 (Ok (js "overloaded"))))
    (Reference.post [("parseType", JString (js "tally"));
                     ("content", JString (js "MV TEST 500 MT"))]%string)
  = finish
      [call_Claude (js "sk-test") (@analyze_js_tally_system Reference.prompts)
         [ {| role := js "user";
              content := plain (str (js "Analyze this tally/discharge report:"
                                     ++ LF ++ LF ++ js "MV TEST 500 MT")) |} ]]
      (UpstreamFailure (analyze analyze_js) 529 (js "overloaded")).
Proof.
  apply (@transport_failures_are_reported Reference.engine Reference.prompts
           (analyze analyze_js) (Reference.with_key (js "sk-test"))
           (Reference.answering (Resolved 529 (Ok (js "overloaded"))))
           (Reference.post [("parseType", JString (js "tally"));
                            ("content", JString (js "MV TEST 500 MT"))]%string)
           (js "sk-test")
           (JObject [(js "parseType", JString (js "tally"));
                     (js "content", JString (js "MV TEST 500 MT"))])
           _ _ eq_refl eq_refl ltac:(discriminate) eq_refl ltac:(discriminate) eq_refl);
    reflexivity.
Defined.


Section ShapeFacts.

Context {E : Engine} {P : Prompts}.




End ShapeFacts.


Section ImageFacts.

Context {E : Engine} {P : Prompts}.

(** The one place the MissingContent failure comes from. *)
Lemma MissingContent_inv
  (ep : endpoint) (env : environment) (w : world) (req : request) :
  In (MissingContent ep) (responses (handler ep env w req)) ->
  exists body, req_body req = Some body
               /\ plan ep w body = Ok (inl (MissingContent ep)).
Proof.
  unfold handler.
  destruct (eqb (method req) (js "OPTIONS")).
  { intros [H|[]]; discriminate H. }
  destruct (negb (eqb (method req) (js "POST"))).
  { intros [H|[]]; discriminate H. }
  destruct (env (api_key_name ep)) as [[|k0 k]|].
  1, 3: intros [H|[]]; destruct ep as [[]|]; discriminate H.
  destruct (req_body req) as [body|].
  2: { intros [H|[]]; destruct ep as [[]|]; discriminate H. }
  destruct (json_eq_null body) as [->|Hnull].
  { intros [H|[]]; destruct ep as [[]|]; discriminate H. }
  rewrite try_block_body by exact Hnull.
  destruct (plan ep w body) as [[early|[sys msgs]]|e] eqn:Hp.
  - intros [H|[]]. cbn in H. subst early. now exists body.
  - unfold after_fetch.
    destruct (fetch w (call_Claude (k0 :: k) sys msgs)) as [e|st [text|e]].
    + intros [H|[]]; destruct ep as [[]|]; discriminate H.
    + destruct (ok st) eqn:Hok; cbn [negb bind].
      * destruct (JSON_parse text) as [data|e]; cbn [bind].
        2: { intros [H|[]]; destruct ep as [[]|]; discriminate H. }
        destruct (textContent_of data) as [[c|]|e]; cbn [bind].
        -- unfold normalize.
           destruct (get_own c (js "text")) as [[| | |s| |]|];
             try (intros [H|[]]; destruct ep as [[]|]; discriminate H).
           destruct (JSON_parse (jsonText_of ep s));
             intros [H|[]]; destruct ep as [[]|]; discriminate H.
        -- intros [H|[]]; destruct ep as [[]|]; discriminate H.
        -- intros [H|[]]; destruct ep as [[]|]; discriminate H.
      * intros [H|[]]; destruct ep as [[]|]; discriminate H.
    + destruct (ok st); intros [H|[]]; destruct ep as [[]|]; discriminate H.
  - intros [H|[]]; destruct ep as [[]|]; discriminate H.
Qed.

End ImageFacts.

(** C9.  When both [content] and [imageBase64] are given, the handler
    takes the image path: whatever call it makes carries one user message
    made of the image block and a text block holding the mode's user
    prompt (the content itself for email and message, the tally
    instruction followed by the content for tally); the text-only message
    is not built, and the MissingContent failure is not produced.  The
    call is made as soon as the request passes the method, credential and
    mode checks. *)
Theorem image_path_when_both_given
  (E : Engine) (P : Prompts) (f : analyze_file) (env : environment) (w : world)
  (req : request) (body content image : JSON) :
  req_body req = Some body ->
  field body "content" = Some content -> truthy (Some content) = true ->
  field body "imageBase64" = Some image -> truthy (Some image) = true ->
  (forall call, In call (calls (handler (analyze f) env w req)) ->
     exists text,
       messages call
       = [ {| role := js "user";
              content := blocks
                [ image_block (or_else (field body "mimeType") (JString (js "image/jpeg")))
                              (Some image);
                  text_block text ] |} ]
       /\ if is_string (field body "parseType") "tally"
          then exists c, ToString (Some content) = Ok c
                         /\ text = JString (tally_user_intro f ++ c)
          else text = content)
  /\ ~ In (MissingContent (analyze f)) (responses (handler (analyze f) env w req))
  /\ (forall apiKey systemPrompt userPrompt,
        method req = js "POST" ->
        env (api_key_name (analyze f)) = Some apiKey -> apiKey <> [] ->
        build_prompts f w body = Ok (Some (systemPrompt, userPrompt)) ->
        exists msgs,
          calls (handler (analyze f) env w req) = [call_Claude apiKey systemPrompt msgs]).
Proof.
  intros Hb Hc Hct Hi Hit.
  assert (Himg : truthy (field body "imageBase64") = true) by now rewrite Hi.
  repeat split.
  - intros call Hin.
    destruct (handler_calls_inv _ _ _ _ _ Hin)
      as (apiKey & body' & sys & msgs & _ & Hb' & Hp & -> & _).
    rewrite Hb in Hb'; injection Hb' as <-.
    apply plan_analyze_inv in Hp as (up & Hbp & Hmsg).
    rewrite build_messages_image in Hmsg by exact Himg. injection Hmsg as <-.
    exists (or_else up image_text_default). rewrite Hi. split; [reflexivity|].
    apply build_prompts_user in Hbp.
    destruct (is_string (field body "parseType") "tally").
    + destruct Hbp as (c & Hts & ->). rewrite Hc in Hts.
      exists c. split; [exact Hts | apply tally_user_prompt_truthy].
    + subst up. rewrite Hc. unfold or_else. now rewrite Hct.
  - intros Hin. apply MissingContent_inv in Hin as (body' & Hb' & Hp).
    rewrite Hb in Hb'; injection Hb' as <-.
    unfold plan in Hp.
    destruct (build_prompts f w body) as [[[sys up]|]|e]; cbn [bind] in Hp;
      try discriminate Hp.
    now rewrite build_messages_image in Hp by exact Himg.
  - intros apiKey sys up Hm Hk Hne Hbp.
    assert (Hnull : body <> JNull).
    { intros ->. discriminate Hc. }
    rewrite (handler_with_credential _ _ _ _ apiKey) by assumption.
    rewrite Hb, try_block_body by exact Hnull. unfold plan.
    rewrite Hbp. cbn [bind]. rewrite build_messages_image by exact Himg.
    eexists. destruct (after_fetch _ _); reflexivity.
Qed.

Lemma image_path_when_both_given_witness :
  calls (@handler Reference.engine Reference.prompts (analyze analyze_js)
           (Reference.with_key (js "sk-test")) Reference.offline
           (Reference.post [("parseType", JString (js "email"));
                            ("content", JString (js "ETA MV TEST 12/01"));
                            ("imageBase64", JString (js "aGVsbG8="));
                            ("mimeType", JString (js "image/png"))]%string))
  = [call_Claude (js "sk-test") (@analyze_js_email_system Reference.prompts)
       [ {| role := js "user";
            content := blocks
              [ image_block (JString (js "image/png")) (str (js "aGVsbG8="));
                text_block (JString (js "ETA MV TEST 12/01")) ] |} ]]
  /\ ~ In (MissingContent (analyze analyze_js))
          (responses (@handler Reference.engine Reference.prompts (analyze analyze_js)
             (Reference.with_key (js "sk-test")) Reference.offline
             (Reference.post [("parseType", JString (js "email"));
                              ("content", JString (js "ETA MV TEST 12/01"));
                              ("imageBase64", JString (js "aGVsbG8="));
                              ("mimeType", JString (js "image/png"))]%string))).
Proof.
  split; [reflexivity|].
  apply (@image_path_when_both_given Reference.engine Reference.prompts analyze_js
           (Reference.with_key (js "sk-test")) Reference.offline
           (Reference.post [("parseType", JString (js "email"));
                            ("content", JString (js "ETA MV TEST 12/01"));
                            ("imageBase64", JString (js "aGVsbG8="));
                            ("mimeType", JString (js "image/png"))]%string)
           _ (JString (js "ETA MV TEST 12/01")) (JString (js "aGVsbG8="))
           eq_refl eq_refl eq_refl eq_refl eq_refl).
Defined.

(** C10.  When [imageBase64] is given and [mimeType] is omitted, the
    image block of the outbound call declares the media type
    [image/jpeg].  A request with such a body that passes the method and
    credential checks makes exactly one call, whose one user message
    holds the image block with media type [image/jpeg] and the text
    block: in analyze.js and part_002 once the mode is recognised and its
    prompts are built, in part_001 when [type] is ['image'].  And no call
    the handler makes for such a body carries an image block with another
    media type. *)
Theorem image_media_type_defaults_to_jpeg
  (E : Engine) (P : Prompts) (ep : endpoint) (env : environment) (w : world)
  (req : request) (body : JSON) :
  req_body req = Some body ->
  truthy (field body "imageBase64") = true ->
  field body "mimeType" = None ->
  (forall apiKey,
     method req = js "POST" ->
     env (api_key_name ep) = Some apiKey -> apiKey <> [] ->
     match ep with
     | analyze f =>
         forall systemPrompt userPrompt,
           build_prompts f w body = Ok (Some (systemPrompt, userPrompt)) ->
           calls (handler ep env w req)
           = [ call_Claude apiKey systemPrompt
                 [ {| role := js "user";
                      content := blocks
                        [ image_block (JString (js "image/jpeg"))
                                      (field body "imageBase64");
                          text_block (or_else userPrompt image_text_default) ] |} ] ]
     | part_001 =>
         is_string (field body "type") "image" = true ->
         calls (handler ep env w req)
         = [ call_Claude apiKey part_001_system
               [ {| role := js "user";
                    content := blocks
                      [ image_block (JString (js "image/jpeg"))
                                    (field body "imageBase64");
                        text_block part_001_image_text ] |} ] ]
     end)
  /\ (forall call, In call (calls (handler ep env w req)) ->
        (forall msg bs media_type data,
           In msg (messages call) -> content msg = blocks bs ->
           In (image_block media_type data) bs ->
           media_type = JString (js "image/jpeg"))
        /\ (match ep with
            | analyze _ => True
            | part_001 => is_string (field body "type") "image" = true
            end ->
            exists text,
              messages call
              = [ {| role := js "user";
                     content := blocks
                       [ image_block (JString (js "image/jpeg"))
                                     (field body "imageBase64");
                         text_block text ] |} ])).
Proof.
  intros Hb Hi Hmt. split.
  - intros apiKey Hm Hk Hne.
    assert (Hnull : body <> JNull).
    { intros ->. discriminate Hi. }
    rewrite (handler_with_credential _ _ _ _ apiKey) by assumption.
    rewrite Hb, try_block_body by exact Hnull. unfold plan.
    destruct ep as [f|].
    + intros sys up Hbp. rewrite Hbp. cbn [bind].
      rewrite build_messages_image by exact Hi. rewrite Hmt. cbn [or_else].
      destruct (after_fetch _ _); reflexivity.
    + intros Ht. unfold part_001_messages. rewrite Ht, Hi, Hmt.
      cbn [andb or_else bind].
      destruct (after_fetch _ _); reflexivity.
  - intros call Hin.
    destruct (handler_calls_inv _ _ _ _ _ Hin)
      as (apiKey & body' & sys & msgs & _ & Hb' & Hp & -> & _).
    rewrite Hb in Hb'; injection Hb' as <-.
    cbn [messages call_Claude].
    destruct ep as [f|].
    + apply plan_analyze_inv in Hp as (up & _ & Hmsg).
      rewrite build_messages_image in Hmsg by exact Hi. injection Hmsg as <-.
      rewrite Hmt. cbn [or_else]. split.
      * intros msg bs mt data [<-|[]] [= <-] [H|[H|[]]]; [|discriminate H].
        now injection H as <- _.
      * intros _. now eexists.
    + unfold plan, part_001_messages in Hp. rewrite Hi, Hmt in Hp.
      destruct (is_string (field body "type") "image"); cbn [andb or_else bind] in Hp.
      * injection Hp as _ <-. split.
        -- intros msg bs mt data [<-|[]] [= <-] [H|[H|[]]]; [|discriminate H].
           now injection H as <- _.
        -- intros _. now eexists.
      * split; [|discriminate].
        destruct (is_string (field body "type") "text" && truthy (field body "content"));
          [|discriminate Hp].
        destruct (ToString (field body "content")); [|discriminate Hp].
        cbn [bind] in Hp. injection Hp as _ <-.
        intros msg bs mt data [<-|[]] H; discriminate H.
Qed.

Lemma image_media_type_defaults_to_jpeg_witness :
  calls (@handler Reference.engine Reference.prompts (analyze analyze_js)
           (Reference.with_key (js "sk-test")) Reference.offline
           (Reference.post [("parseType", JString (js "email"));
                            ("imageBase64", JString (js "aGVsbG8="))]%string))
  = [call_Claude (js "sk-test") (@analyze_js_email_system Reference.prompts)
       [ {| role := js "user";
            content := blocks
              [ image_block (JString (js "image/jpeg")) (str (js "aGVsbG8="));
                text_block (@image_text_default Reference.engine) ] |} ]]
  /\ calls (@handler Reference.engine Reference.prompts (analyze part_002)
              (Reference.with_key (js "sk-test")) Reference.offline
              (Reference.post [("parseType", JString (js "tally"));
                               ("content", JString (js "MV TEST 500 MT"));
                               ("imageBase64", JString (js "aGVsbG8="))]%string))
     = [call_Claude (js "sk-test") (@part_002_tally_system Reference.prompts)
          [ {| role := js "user";
               content := blocks
                 [ image_block (JString (js "image/jpeg")) (str (js "aGVsbG8="));
                   text_block (JString (tally_user_intro part_002
                                        ++ js "MV TEST 500 MT")) ] |} ]]
  /\ calls (@handler Reference.engine Reference.prompts part_001
              (Reference.with_key (js "sk-test")) Reference.offline
              (Reference.post [("type", JString (js "image"));
                               ("imageBase64", JString (js "aGVsbG8="))]%string))
     = [call_Claude (js "sk-test") (@part_001_system Reference.prompts)
          [ {| role := js "user";
               content := blocks
                 [ image_block (JString (js "image/jpeg")) (str (js "aGVsbG8="));
                   text_block (@part_001_image_text Reference.engine) ] |} ]].
Proof.
  split; [|split].
  - exact (proj1 (@image_media_type_defaults_to_jpeg Reference.engine Reference.prompts
                    (analyze analyze_js)
                    (Reference.with_key (js "sk-test")) Reference.offline
                    (Reference.post [("parseType", JString (js "email"));
                                     ("imageBase64", JString (js "aGVsbG8="))]%string)
                    _ eq_refl eq_refl eq_refl)
             (js "sk-test") eq_refl eq_refl ltac:(discriminate)
             _ _ eq_refl).
  - exact (proj1 (@image_media_type_defaults_to_jpeg Reference.engine Reference.prompts
                    (analyze part_002)
                    (Reference.with_key (js "sk-test")) Reference.offline
                    (Reference.post [("parseType", JString (js "tally"));
                                     ("content", JString (js "MV TEST 500 MT"));
                                     ("imageBase64", JString (js "aGVsbG8="))]%string)
                    _ eq_refl eq_refl eq_refl)
             (js "sk-test") eq_refl eq_refl ltac:(discriminate)
             _ _ eq_refl).
  - exact (proj1 (@image_media_type_defaults_to_jpeg Reference.engine Reference.prompts
                    part_001
                    (Reference.with_key (js "sk-test")) Reference.offline
                    (Reference.post [("type", JString (js "image"));
                                     ("imageBase64", JString (js "aGVsbG8="))]%string)
                    _ eq_refl eq_refl eq_refl)
             (js "sk-test") eq_refl eq_refl ltac:(discriminate) eq_refl).
Defined.

(** * Further properties of the handlers *)

(** ** The gateway *)

Section GatewayOrder.

Context {E : Engine} {P : Prompts}.

(** A response other than the three early ones comes from behind the
    method check. *)
Lemma handler_calls_post
  (ep : endpoint) (env : environment) (w : world) (req : request) (call : outbound) :
  In call (calls (handler ep env w req)) -> method req = js "POST".
Proof.
  unfold handler.
  destruct (eqb (method req) (js "OPTIONS")); [intros []|].
  destruct (eqb (method req) (js "POST")) eqn:Hp; [|intros []].
  intros _. now apply eqb_eq.
Qed.

End GatewayOrder.

(** An unrecognised [parseType] (missing, no string, or any string but
    ['email'], ['message'], ['tally'], which are compared
    case-sensitively) is answered by the InvalidMode failure with status
    400, whatever else the body holds, and no call is made. *)
Theorem unrecognised_mode_rejected
  (E : Engine) (P : Prompts) (f : analyze_file) (env : environment) (w : world)
  (req : request) (apiKey : jsstring) (body : JSON) :
  method req = js "POST" ->
  env (api_key_name (analyze f)) = Some apiKey -> apiKey <> [] ->
  req_body req = Some body -> body <> JNull ->
  recognised body = false ->
  handler (analyze f) env w req = finish [] InvalidMode
  /\ status InvalidMode = 400
  /\ variants_of InvalidMode = [failure].
Proof.
  intros Hm Hk Hne Hb Hnull Hr.
  rewrite (handler_with_credential _ _ _ _ apiKey) by assumption.
  rewrite Hb, try_block_body by exact Hnull. unfold plan.
  rewrite build_prompts_unrecognised by exact Hr. repeat split.
Qed.

Lemma unrecognised_mode_rejected_witness :
  @handler Reference.engine Reference.prompts (analyze analyze_js)
    (Reference.with_key (js "sk-test")) Reference.offline
    (Reference.post [("parseType", JString (js "Email"));
                     ("content", JString (js "ETA MV TEST 12/01"));
                     ("imageBase64", JString (js "aGVsbG8="))]%string)
  = finish [] InvalidMode.
Proof.
  apply (@unrecognised_mode_rejected Reference.engine Reference.prompts analyze_js
           (Reference.with_key (js "sk-test")) Reference.offline
           (Reference.post [("parseType", JString (js "Email"));
                            ("content", JString (js "ETA MV TEST 12/01"));
                            ("imageBase64", JString (js "aGVsbG8="))]%string)
           (js "sk-test") _ eq_refl eq_refl ltac:(discriminate) eq_refl
           ltac:(discriminate) eq_refl).
Defined.

(** An invocation calls the provider at most once, and only for a POST
    request with the credential set and a body the plan accepts; the call
    goes to the fixed endpoint with the fixed model, version and token
    limit, carries the credential of the environment, and the system
    prompt and messages the plan gives. *)
Theorem outbound_call_discipline
  (E : Engine) (P : Prompts) (ep : endpoint) (env : environment) (w : world)
  (req : request) :
  (length (calls (handler ep env w req)) <= 1)%nat
  /\ Forall
       (fun call =>
          method req = js "POST"
          /\ env (api_key_name ep) = Some (x_api_key call)
          /\ x_api_key call <> []
          /\ url call = js "https://api.anthropic.com/v1/messages"
          /\ anthropic_version call = js "2023-06-01"
          /\ model call = js "claude-sonnet-4-20250514"
          /\ max_tokens call = 4096
          /\ exists body,
               req_body req = Some body
               /\ plan ep w body = Ok (inr (system call, messages call)))
       (calls (handler ep env w req)).
Proof.
  destruct (calls (handler ep env w req)) as [|call rest] eqn:Hc.
  { split; [simpl; lia | constructor]. }
  assert (Hin : In call (calls (handler ep env w req))) by (rewrite Hc; now left).
  pose proof (handler_calls_post _ _ _ _ _ Hin) as Hm.
  destruct (handler_calls_inv _ _ _ _ _ Hin)
    as (apiKey & body & sys & msgs & Hk & Hb & Hp & Hcall & Hone).
  rewrite Hc in Hone. injection Hone as ->.
  split; [simpl; lia|].
  constructor; [|constructor]. subst call. cbn.
  assert (Hne : apiKey <> []).
  { intros ->. unfold handler in Hin. rewrite Hm, Hk in Hin. destruct Hin. }
  repeat split; try assumption. now exists body.
Qed.

(** A POST request without a body (or with the body [null]) is not
    rejected as a bad request: destructuring [req.body] throws, and the
    outer [catch] answers with status 500 and the [TypeError]'s message.
    No call is made. *)
Theorem missing_body_is_internal_failure
  (E : Engine) (P : Prompts) (ep : endpoint) (env : environment) (w : world)
  (req : request) (apiKey : jsstring) :
  method req = js "POST" ->
  env (api_key_name ep) = Some apiKey -> apiKey <> [] ->
  req_body req = None \/ req_body req = Some JNull ->
  handler ep env w req = finish [] (InternalFailure (TypeError destructure_nullish))
  /\ status (InternalFailure (TypeError destructure_nullish)) = 500.
Proof.
  intros Hm Hk Hne Hb.
  rewrite (handler_with_credential _ _ _ _ apiKey) by assumption.
  destruct Hb as [-> | ->]; split; reflexivity.
Qed.

Lemma missing_body_is_internal_failure_witness :
  @handler Reference.engine Reference.prompts (analyze part_002)
    (Reference.with_key (js "sk-test")) Reference.offline
    {| method := js "POST"; req_body := None |}
  = finish [] (InternalFailure (@TypeError Reference.engine destructure_nullish)).
Proof.
  apply (@missing_body_is_internal_failure Reference.engine Reference.prompts
           (analyze part_002) (Reference.with_key (js "sk-test")) Reference.offline
           {| method := js "POST"; req_body := None |} (js "sk-test")
           eq_refl eq_refl ltac:(discriminate) (or_introl eq_refl)).
Defined.

(** In the email and message modes of analyze.js, an [existingShips]
    that is a non-empty string instead of an array has a positive
    [length] but no [join]: the request ends in the 500 failure of the
    outer [catch], however valid its content, and no call is made.  In
    the tally mode [existingShips] is not looked at. *)
Theorem existingShips_string_is_internal_failure
  (E : Engine) (P : Prompts) (env : environment) (w : world)
  (req : request) (apiKey : jsstring) (body : JSON) (c : char16) (ships : jsstring) :
  method req = js "POST" ->
  env (api_key_name (analyze analyze_js)) = Some apiKey -> apiKey <> [] ->
  req_body req = Some body -> body <> JNull ->
  field body "existingShips" = Some (JString (c :: ships)) ->
  (is_string (field body "parseType") "email"
   || is_string (field body "parseType") "message" = true ->
   handler (analyze analyze_js) env w req
   = finish [] (InternalFailure (TypeError (not_a_function (js "join")))))
  /\ (forall content,
        is_string (field body "parseType") "tally" = true ->
        field body "content" = Some (JString content) ->
        build_prompts analyze_js w body
        = Ok (Some (analyze_js_tally_system,
                    str (tally_user_intro analyze_js ++ content)))).
Proof.
  intros Hm Hk Hne Hb Hnull Hs. split.
  - intros Hmode.
    rewrite (handler_with_credential _ _ _ _ apiKey) by assumption.
    rewrite Hb, try_block_body by exact Hnull. unfold plan, build_prompts.
    rewrite Hmode. cbn [email_system bind]. rewrite Hs. reflexivity.
  - intros content Ht Hc. unfold build_prompts.
    destruct (field body "parseType") as [[| | |pt| |]|]; try discriminate Ht.
    cbn [is_string] in *. apply eqb_eq in Ht; subst pt. cbn.
    rewrite Hc. reflexivity.
Qed.

Lemma existingShips_string_is_internal_failure_witness :
  @handler Reference.engine Reference.prompts (analyze analyze_js)
    (Reference.with_key (js "sk-test")) Reference.offline
    (Reference.post [("parseType", JString (js "email"));
                     ("content", JString (js "ETA MV TEST 12/01"));
                     ("existingShips", JString (js "MV TEST"))]%string)
  = finish [] (InternalFailure (@TypeError Reference.engine (not_a_function (js "join")))).
Proof.
  apply (@existingShips_string_is_internal_failure Reference.engine Reference.prompts
           (Reference.with_key (js "sk-test")) Reference.offline
           (Reference.post [("parseType", JString (js "email"));
                            ("content", JString (js "ETA MV TEST 12/01"));
                            ("existingShips", JString (js "MV TEST"))]%string)
           (js "sk-test") _ 77 (js "V TEST")
           eq_refl eq_refl ltac:(discriminate) eq_refl ltac:(discriminate) eq_refl).
  reflexivity.
Defined.

(** ** What the handlers read of the body *)

Section BodyFrame.

Context {E : Engine} {P : Prompts}.

Lemma plan_same_fields (ep : endpoint) (w : world) (b1 b2 : JSON) :
  Forall (fun key => field b1 key = field b2 key)
    ["parseType"; "content"; "imageBase64"; "mimeType"; "existingShips";
     "currentYear"; "type"]%string ->
  plan ep w b1 = plan ep w b2.
Proof.
  intros H.
  repeat match type of H with
         | Forall _ (_ :: _) => let Hk := fresh "Hk" in inversion_clear H as [|? ? Hk H']; rename H' into H
         end.
  destruct ep as [f|]; unfold plan.
  - assert (Hbp : build_prompts f w b1 = build_prompts f w b2).
    { unfold build_prompts, email_system. now rewrite Hk, Hk0, Hk3, Hk4. }
    rewrite Hbp. destruct (build_prompts f w b2) as [[[sys up]|]|e]; try reflexivity.
    cbn [bind]. unfold build_messages. now rewrite Hk0, Hk1, Hk2.
  - unfold part_001_messages. now rewrite Hk0, Hk1, Hk2, Hk5.
Qed.

End BodyFrame.

(** The handlers read seven members of the body and nothing else: two
    requests whose bodies agree on [parseType], [content], [imageBase64],
    [mimeType], [existingShips], [currentYear] and [type] get the same
    response and cause the same call, whatever else the bodies hold. *)
Theorem unknown_members_are_ignored
  (E : Engine) (P : Prompts) (ep : endpoint) (env : environment) (w : world)
  (m : jsstring) (b1 b2 : JSON) :
  b1 <> JNull -> b2 <> JNull ->
  Forall (fun key => field b1 key = field b2 key)
    ["parseType"; "content"; "imageBase64"; "mimeType"; "existingShips";
     "currentYear"; "type"]%string ->
  handler ep env w {| method := m; req_body := Some b1 |}
  = handler ep env w {| method := m; req_body := Some b2 |}.
Proof.
  intros H1 H2 Hf. unfold handler. cbn [method req_body].
  destruct (eqb m (js "OPTIONS")); [reflexivity|].
  destruct (negb (eqb m (js "POST"))); [reflexivity|].
  destruct (env (api_key_name ep)) as [[|k0 k]|]; try reflexivity.
  rewrite !try_block_body by assumption.
  now rewrite (plan_same_fields ep w b1 b2 Hf).
Qed.

Lemma unknown_members_are_ignored_witness :
  @handler Reference.engine Reference.prompts (analyze analyze_js)
    (Reference.with_key (js "sk-test")) Reference.offline
    (Reference.post [("parseType", JString (js "tally"));
                     ("content", JString (js "MV TEST 500 MT"));
                     ("debug", JBool true)]%string)
  = @handler Reference.engine Reference.prompts (analyze analyze_js)
      (Reference.with_key (js "sk-test")) Reference.offline
      (Reference.post [("content", JString (js "MV TEST 500 MT"));
                       ("parseType", JString (js "tally"))]%string).
Proof.
  apply (@unknown_members_are_ignored Reference.engine Reference.prompts);
    [discriminate | discriminate | repeat constructor].
Defined.

(** ** The messages sent *)

(** A tally request with text and no image sends one plain user message:
    the tally instruction of the file, two line feeds, and the content as
    it came; the system prompt is the tally prompt. *)
Theorem tally_text_request_call
  (E : Engine) (P : Prompts) (f : analyze_file) (env : environment) (w : world)
  (req : request) (apiKey : jsstring) (body : JSON) (c : char16) (text : jsstring) :
  method req = js "POST" ->
  env (api_key_name (analyze f)) = Some apiKey -> apiKey <> [] ->
  req_body req = Some body -> body <> JNull ->
  is_string (field body "parseType") "tally" = true ->
  field body "content" = Some (JString (c :: text)) ->
  truthy (field body "imageBase64") = false ->
  calls (handler (analyze f) env w req)
  = [ call_Claude apiKey (tally_system f)
        [ {| role := js "user";
             content := plain (str (tally_user_intro f ++ c :: text)) |} ] ].
Proof.
  intros Hm Hk Hne Hb Hnull Ht Hc Hi.
  rewrite (handler_with_credential _ _ _ _ apiKey) by assumption.
  rewrite Hb, try_block_body by exact Hnull. unfold plan, build_prompts.
  destruct (field body "parseType") as [[| | |pt| |]|]; try discriminate Ht.
  cbn [is_string] in *. apply eqb_eq in Ht; subst pt. cbn -[tally_user_intro tally_system].
  rewrite Hc. cbn [ToString bind]. unfold build_messages. rewrite Hi, Hc.
  cbn [truthy eqb negb].
  destruct (after_fetch _ _); reflexivity.
Qed.

Lemma tally_text_request_call_witness :
  calls (@handler Reference.engine Reference.prompts (analyze part_002)
           (Reference.with_key (js "sk-test")) Reference.offline
           (Reference.post [("parseType", JString (js "tally"));
                            ("content", JString (js "MV TEST 500 MT"))]%string))
  = [ call_Claude (js "sk-test") (@tally_system Reference.prompts part_002)
        [ {| role := js "user";
             content := plain (str (tally_user_intro part_002 ++ js "MV TEST 500 MT")) |} ] ].
Proof.
  apply (@tally_text_request_call Reference.engine Reference.prompts part_002
           (Reference.with_key (js "sk-test")) Reference.offline
           (Reference.post [("parseType", JString (js "tally"));
                            ("content", JString (js "MV TEST 500 MT"))]%string)
           (js "sk-test") _ 77 (js "V TEST 500 MT")
           eq_refl eq_refl ltac:(discriminate) eq_refl ltac:(discriminate)
           eq_refl eq_refl eq_refl).
Defined.



(** In part_001 the [type] member chooses the path.  A request whose
    [type] fits neither what it carries (['image'] with an image,
    ['text'] with content) is answered by the MissingContent failure with
    status 400, even when it holds both content and an image. *)
Theorem part_001_type_must_fit
  (E : Engine) (P : Prompts) (env : environment) (w : world)
  (req : request) (apiKey : jsstring) (body : JSON) :
  method req = js "POST" ->
  env (api_key_name part_001) = Some apiKey -> apiKey <> [] ->
  req_body req = Some body -> body <> JNull ->
  is_string (field body "type") "image" && truthy (field body "imageBase64") = false ->
  is_string (field body "type") "text" && truthy (field body "content") = false ->
  handler part_001 env w req = finish [] (MissingContent part_001)
  /\ status (MissingContent part_001) = 400.
Proof.
  intros Hm Hk Hne Hb Hnull Hi Ht.
  rewrite (handler_with_credential _ _ _ _ apiKey) by assumption.
  rewrite Hb, try_block_body by exact Hnull. unfold plan, part_001_messages.
  rewrite Hi, Ht. split; reflexivity.
Qed.

Lemma part_001_type_must_fit_witness :
  @handler Reference.engine Reference.prompts part_001
    (Reference.with_key (js "sk-test")) Reference.offline
    (Reference.post [("type", JString (js "tally"));
                     ("content", JString (js "MV TEST 500 MT"));
                     ("imageBase64", JString (js "aGVsbG8="))]%string)
  = finish [] (MissingContent part_001).
Proof.
  apply (@part_001_type_must_fit Reference.engine Reference.prompts
           (Reference.with_key (js "sk-test")) Reference.offline
           (Reference.post [("type", JString (js "tally"));
                            ("content", JString (js "MV TEST 500 MT"));
                            ("imageBase64", JString (js "aGVsbG8="))]%string)
           (js "sk-test") _ eq_refl eq_refl ltac:(discriminate) eq_refl
           ltac:(discriminate) eq_refl eq_refl).
Defined.

(** In part_001 a request of [type] ['text'] with content takes the text
    path although it also carries an image: the one message sent is the
    instruction followed by the content, and holds no image block. *)
Theorem part_001_text_type_ignores_image
  (E : Engine) (P : Prompts) (env : environment) (w : world)
  (req : request) (apiKey : jsstring) (body : JSON) (c : char16) (text : jsstring) :
  method req = js "POST" ->
  env (api_key_name part_001) = Some apiKey -> apiKey <> [] ->
  req_body req = Some body -> body <> JNull ->
  is_string (field body "type") "text" = true ->
  field body "content" = Some (JString (c :: text)) ->
  calls (handler part_001 env w req)
  = [ call_Claude apiKey part_001_system
        [ {| role := js "user";
             content := plain (str (part_001_text_intro ++ c :: text)) |} ] ].
Proof.
  intros Hm Hk Hne Hb Hnull Ht Hc.
  rewrite (handler_with_credential _ _ _ _ apiKey) by assumption.
  rewrite Hb, try_block_body by exact Hnull. unfold plan, part_001_messages.
  destruct (field body "type") as [[| | |ty| |]|]; try discriminate Ht.
  cbn [is_string] in *. apply eqb_eq in Ht; subst ty.
  rewrite Hc. cbn -[part_001_text_intro].
  destruct (after_fetch _ _); reflexivity.
Qed.

Lemma part_001_text_type_ignores_image_witness :
  calls (@handler Reference.engine Reference.prompts part_001
           (Reference.with_key (js "sk-test")) Reference.offline
           (Reference.post [("type", JString (js "text"));
                            ("content", JString (js "MV TEST 500 MT"));
                            ("imageBase64", JString (js "aGVsbG8="))]%string))
  = [ call_Claude (js "sk-test") (@part_001_system Reference.prompts)
        [ {| role := js "user";
             content := plain (str (part_001_text_intro ++ js "MV TEST 500 MT")) |} ] ].
Proof.
  apply (@part_001_text_type_ignores_image Reference.engine Reference.prompts
           (Reference.with_key (js "sk-test")) Reference.offline
           (Reference.post [("type", JString (js "text"));
                            ("content", JString (js "MV TEST 500 MT"));
                            ("imageBase64", JString (js "aGVsbG8="))]%string)
           (js "sk-test") _ 77 (js "V TEST 500 MT")
           eq_refl eq_refl ltac:(discriminate) eq_refl ltac:(discriminate)
           eq_refl eq_refl).
Defined.

(** ** Reading the provider's answer *)

Section AnswerFacts.

Context {E : Engine} {P : Prompts}.

(** [find] stops at the first text block: the items behind it are not
    looked at. *)
Lemma find_text_first (before behind : list JSON) (c : JSON) :
  Forall (fun x => x <> JNull /\ is_string (get_own x (js "type")) "text" = false) before ->
  is_string (get_own c (js "type")) "text" = true ->
  find_text (before ++ c :: behind) = Ok (Some c).
Proof.
  intros Hb Hc; induction Hb as [|x before [Hx Ht] _ IH]; simpl.
  - destruct c; try discriminate Hc. simpl in Hc |- *. now rewrite Hc.
  - destruct x; try contradiction; simpl in Ht |- *; try exact IH.
    now rewrite Ht.
Qed.

Lemma find_text_none (items : list JSON) :
  Forall (fun x => x <> JNull /\ is_string (get_own x (js "type")) "text" = false) items ->
  find_text items = Ok None.
Proof.
  induction 1 as [|x items [Hx Ht] _ IH]; simpl; [reflexivity|].
  destruct x; try contradiction; simpl in Ht |- *; try exact IH.
  now rewrite Ht.
Qed.

(** The handler once the call is made and answered with a success
    status. *)
Lemma handler_answered
  (ep : endpoint) (env : environment) (w : world) (req : request)
  (apiKey : jsstring) (body : JSON) (systemPrompt : jsstring) (msgs : list message)
  (st : N) (answer : jsstring) :
  method req = js "POST" ->
  env (api_key_name ep) = Some apiKey -> apiKey <> [] ->
  req_body req = Some body -> body <> JNull ->
  plan ep w body = Ok (inr (systemPrompt, msgs)) ->
  fetch w (call_Claude apiKey systemPrompt msgs) = Resolved st (Ok answer) ->
  ok st = true ->
  handler ep env w req
  = match (data <- JSON_parse answer ;; textContent_of data) with
    | Ok (Some c) =>
        finish [call_Claude apiKey systemPrompt msgs] (normalize ep (get_own c (js "text")))
    | Ok None => finish [call_Claude apiKey systemPrompt msgs] (NoTextResponse ep)
    | Throw e => finish [call_Claude apiKey systemPrompt msgs] (InternalFailure e)
    end.
Proof.
  intros Hm Hk Hne Hb Hnull Hp Hf Hok.
  rewrite (handler_with_credential _ _ _ _ apiKey) by assumption.
  rewrite Hb, try_block_body, Hp by exact Hnull.
  unfold after_fetch. rewrite Hf, Hok. cbn [negb bind].
  destruct (JSON_parse answer) as [data|e]; cbn [bind]; [|reflexivity].
  destruct (textContent_of data) as [[c|]|e]; reflexivity.
Qed.

End AnswerFacts.

(** Of the provider's answer only the first block of type ['text'] is
    used: when the [content] array of the answer holds such a block
    behind blocks of other types, the response is what the normalizer
    makes of that block's [text], whatever follows it in the array (more
    text blocks, [null], anything). *)
Theorem first_text_block_is_used
  (E : Engine) (P : Prompts) (ep : endpoint) (env : environment) (w : world)
  (req : request) (apiKey : jsstring) (body : JSON)
  (systemPrompt : jsstring) (msgs : list message)
  (st : N) (answer : jsstring) (members : list (jsstring * JSON))
  (before behind : list JSON) (c : JSON) :
  method req = js "POST" ->
  env (api_key_name ep) = Some apiKey -> apiKey <> [] ->
  req_body req = Some body -> body <> JNull ->
  plan ep w body = Ok (inr (systemPrompt, msgs)) ->
  fetch w (call_Claude apiKey systemPrompt msgs) = Resolved st (Ok answer) ->
  ok st = true ->
  JSON_parse answer = Ok (JObject members) ->
  obj_get members (js "content") = Some (JArray (before ++ c :: behind)) ->
  Forall (fun x => x <> JNull /\ is_string (get_own x (js "type")) "text" = false) before ->
  is_string (get_own c (js "type")) "text" = true ->
  handler ep env w req
  = finish [call_Claude apiKey systemPrompt msgs] (normalize ep (get_own c (js "text"))).
Proof.
  intros Hm Hk Hne Hb Hnull Hp Hf Hok Hd Hc Hbefore Htext.
  rewrite (handler_answered ep env w req apiKey body systemPrompt msgs st answer)
    by assumption.
  rewrite Hd. cbn [bind textContent_of get_own]. rewrite Hc.
  now rewrite find_text_first.
Qed.

Lemma first_text_block_is_used_witness :
  @handler Reference.engine Reference.prompts part_001
    (Reference.with_key (js "sk-test"))
    (Reference.answering
       (Resolved 200
          (Ok (jsq "{'content':[{'type':'thinking'},{'type':'text','text':'[1]'},null,{'type':'text','text':'[2]'}]}"))))
    (Reference.post [("type", JString (js "text"));
                     ("content", JString (js "MV TEST 500 MT"))]%string)
  = finish
      [ call_Claude (js "sk-test") (@part_001_system Reference.prompts)
          [ {| role := js "user";
               content := plain (str (part_001_text_intro ++ js "MV TEST 500 MT")) |} ] ]
      (@normalize Reference.engine part_001
         (get_own (JObject [(js "type", JString (js "text"));
                            (js "text", JString (js "[1]"))]) (js "text"))).
Proof.
  apply (@first_text_block_is_used Reference.engine Reference.prompts part_001
           (Reference.with_key (js "sk-test"))
           (Reference.answering
              (Resolved 200
                 (Ok (jsq "{'content':[{'type':'thinking'},{'type':'text','text':'[1]'},null,{'type':'text','text':'[2]'}]}"))))
           (Reference.post [("type", JString (js "text"));
                            ("content", JString (js "MV TEST 500 MT"))]%string)
           (js "sk-test") _ _ _ 200 _
           [(js "content",
             JArray [JObject [(js "type", JString (js "thinking"))];
                     JObject [(js "type", JString (js "text"));
                              (js "text", JString (js "[1]"))];
                     JNull;
                     JObject [(js "type", JString (js "text"));
                              (js "text", JString (js "[2]"))]])]
           [JObject [(js "type", JString (js "thinking"))]]
           [JNull; JObject [(js "type", JString (js "text"));
                            (js "text", JString (js "[2]"))]]
           (JObject [(js "type", JString (js "text")); (js "text", JString (js "[1]"))])
           eq_refl eq_refl ltac:(discriminate) eq_refl ltac:(discriminate)
           eq_refl eq_refl eq_refl eq_refl eq_refl);
    [ repeat constructor; discriminate | reflexivity ].
Defined.

(** A success status does not make the answer usable.  When the body of
    the answer is no JSON, or is JSON without a [content] array, the
    exception is caught by the outer [catch] and answered with status 500
    (it is no raw fallback); when the [content] array holds no text
    block, the response is the NoTextResponse failure, status 500. *)
Theorem unusable_answer_is_failure
  (E : Engine) (P : Prompts) (ep : endpoint) (env : environment) (w : world)
  (req : request) (apiKey : jsstring) (body : JSON)
  (systemPrompt : jsstring) (msgs : list message) (st : N) (answer : jsstring) :
  method req = js "POST" ->
  env (api_key_name ep) = Some apiKey -> apiKey <> [] ->
  req_body req = Some body -> body <> JNull ->
  plan ep w body = Ok (inr (systemPrompt, msgs)) ->
  fetch w (call_Claude apiKey systemPrompt msgs) = Resolved st (Ok answer) ->
  ok st = true ->
  (forall e, JSON_parse answer = Throw e ->
     handler ep env w req
     = finish [call_Claude apiKey systemPrompt msgs] (InternalFailure e))
  /\ (forall data,
        JSON_parse answer = Ok data ->
        (forall items, get_own data (js "content") <> Some (JArray items)) ->
        exists e,
          handler ep env w req
          = finish [call_Claude apiKey systemPrompt msgs] (InternalFailure e))
  /\ (forall data items,
        JSON_parse answer = Ok data ->
        get_own data (js "content") = Some (JArray items) ->
        Forall (fun x => x <> JNull /\ is_string (get_own x (js "type")) "text" = false)
          items ->
        handler ep env w req
        = finish [call_Claude apiKey systemPrompt msgs] (NoTextResponse ep)
        /\ status (NoTextResponse ep) = 500).
Proof.
  intros Hm Hk Hne Hb Hnull Hp Hf Hok.
  rewrite (handler_answered ep env w req apiKey body systemPrompt msgs st answer)
    by assumption.
  repeat split.
  - intros e ->. reflexivity.
  - intros data -> Hno. cbn [bind]. unfold textContent_of.
    destruct data; try (eexists; reflexivity).
    destruct (get_own (JObject members) (js "content")) as [[| | | |items|]|];
      try (eexists; reflexivity).
    now destruct (Hno items).
  - rewrite H. cbn [bind]. unfold textContent_of.
    destruct data; try discriminate H0. rewrite H0. now rewrite find_text_none.
Qed.

Lemma unusable_answer_is_failure_witness :
  @handler Reference.engine Reference.prompts (analyze analyze_js)
    (Reference.with_key (js "sk-test"))
    (Reference.answering (Resolved 200 (Ok (js "<html>Bad gateway</html>"))))
    (Reference.post [("parseType", JString (js "tally"));
                     ("content", JString (js "MV TEST 500 MT"))]%string)
  = finish
      [ call_Claude (js "sk-test") (@tally_system Reference.prompts analyze_js)
          [ {| role := js "user";
               content := plain (str (tally_user_intro analyze_js ++ js "MV TEST 500 MT")) |} ] ]
      (InternalFailure Reference.syntax_error).
Proof.
  apply (@unusable_answer_is_failure Reference.engine Reference.prompts
           (analyze analyze_js) (Reference.with_key (js "sk-test"))
           (Reference.answering (Resolved 200 (Ok (js "<html>Bad gateway</html>"))))
           (Reference.post [("parseType", JString (js "tally"));
                            ("content", JString (js "MV TEST 500 MT"))]%string)
           (js "sk-test") _ _ _ 200 _
           eq_refl eq_refl ltac:(discriminate) eq_refl ltac:(discriminate)
           eq_refl eq_refl eq_refl).
  reflexivity.
Defined.

(** A text block whose [text] is missing or is no string makes [.trim()]
    throw inside the inner [try]: the response is the raw fallback with
    status 200, [raw] being that value (left out when it is missing),
    and not a failure. *)
Theorem text_block_without_string_falls_back
  (E : Engine) (P : Prompts) (ep : endpoint) (env : environment) (w : world)
  (req : request) (apiKey : jsstring) (body : JSON)
  (systemPrompt : jsstring) (msgs : list message)
  (st : N) (answer : jsstring) (data c : JSON) :
  method req = js "POST" ->
  env (api_key_name ep) = Some apiKey -> apiKey <> [] ->
  req_body req = Some body -> body <> JNull ->
  plan ep w body = Ok (inr (systemPrompt, msgs)) ->
  fetch w (call_Claude apiKey systemPrompt msgs) = Resolved st (Ok answer) ->
  ok st = true ->
  JSON_parse answer = Ok data ->
  textContent_of data = Ok (Some c) ->
  (forall s, get_own c (js "text") <> Some (JString s)) ->
  handler ep env w req
  = finish [call_Claude apiKey systemPrompt msgs] (RawFallback (get_own c (js "text")))
  /\ variants_of (RawFallback (get_own c (js "text"))) = [raw_fallback]
  /\ member_of (RawFallback (get_own c (js "text"))) "raw" = get_own c (js "text").
Proof.
  intros Hm Hk Hne Hb Hnull Hp Hf Hok Hd Hc Hs.
  rewrite (handler_normalizes ep env w req apiKey body systemPrompt msgs st answer data c)
    by assumption.
  unfold normalize.
  destruct (get_own c (js "text")) as [[| | |s| |]|]; try (repeat split; fail).
  now destruct (Hs s).
Qed.

Lemma text_block_without_string_falls_back_witness :
  @handler Reference.engine Reference.prompts (analyze analyze_js)
    (Reference.with_key (js "sk-test"))
    (Reference.answering (Resolved 200 (Ok (jsq "{'content':[{'type':'text'}]}"))))
    (Reference.post [("parseType", JString (js "tally"));
                     ("content", JString (js "MV TEST 500 MT"))]%string)
  = finish
      [ call_Claude (js "sk-test") (@tally_system Reference.prompts analyze_js)
          [ {| role := js "user";
               content := plain (str (tally_user_intro analyze_js ++ js "MV TEST 500 MT")) |} ] ]
      (@RawFallback Reference.engine None).
Proof.
  apply (@text_block_without_string_falls_back Reference.engine Reference.prompts
           (analyze analyze_js) (Reference.with_key (js "sk-test"))
           (Reference.answering (Resolved 200 (Ok (jsq "{'content':[{'type':'text'}]}"))))
           (Reference.post [("parseType", JString (js "tally"));
                            ("content", JString (js "MV TEST 500 MT"))]%string)
           (js "sk-test") _ _ _ 200 _
           (JObject [(js "content", JArray [JObject [(js "type", JString (js "text"))]])])
           (JObject [(js "type", JString (js "text"))])
           eq_refl eq_refl ltac:(discriminate) eq_refl ltac:(discriminate)
           eq_refl eq_refl eq_refl eq_refl eq_refl);
    discriminate.
Defined.

(** The status of the response is 200, 400, 405 or 500, or else it is the
    status the provider answered the call with, which then lies outside
    200..299. *)
Theorem response_status_range
  (E : Engine) (P : Prompts) (ep : endpoint) (env : environment) (w : world)
  (req : request) :
  exists r,
    responses (handler ep env w req) = [r]
    /\ (status r = 200 \/ status r = 400 \/ status r = 405 \/ status r = 500
        \/ (ok (status r) = false
            /\ exists call errorData,
                 calls (handler ep env w req) = [call]
                 /\ fetch w call = Resolved (status r) (Ok errorData))).
Proof.
  unfold handler. destruct (eqb (method req) (js "OPTIONS")).
  { exists Preflight. split; [reflexivity | now left]. }
  destruct (negb (eqb (method req) (js "POST"))).
  { exists MethodNotAllowed. split; [reflexivity | now right; right; left]. }
  destruct (env (api_key_name ep)) as [[|k0 k]|].
  1, 3: exists (MissingCredential ep); split; [reflexivity | now right; right; right; left].
  destruct (req_body req) as [body|].
  2: { eexists; split; [reflexivity | now right; right; right; left]. }
  destruct (json_eq_null body) as [->|Hnull].
  { eexists; split; [reflexivity | now right; right; right; left]. }
  rewrite try_block_body by exact Hnull.
  destruct (plan ep w body) as [[early|[sys msgs]]|e] eqn:Hp.
  - exists early. split; [reflexivity|].
    destruct (plan_early _ _ _ _ Hp) as [-> | ->]; [|destruct ep]; now right; left.
  - unfold after_fetch.
    destruct (fetch w (call_Claude (k0 :: k) sys msgs)) as [e|st [answer|e]] eqn:Hf.
    + eexists; split; [reflexivity | now right; right; right; left].
    + destruct (ok st) eqn:Hok; cbn [negb bind].
      * destruct (JSON_parse answer) as [data|e]; cbn [bind].
        2: { eexists; split; [reflexivity | now right; right; right; left]. }
        destruct (textContent_of data) as [[c|]|e]; cbn [bind].
        -- eexists; split; [reflexivity|]. left.
           unfold normalize.
           destruct (get_own c (js "text")) as [[| | |s| |]|]; try reflexivity.
           destruct (JSON_parse (jsonText_of ep s)); reflexivity.
        -- eexists; split; [reflexivity|]. destruct ep as [[]|]; now right; right; right; left.
        -- eexists; split; [reflexivity | now right; right; right; left].
      * eexists; split; [reflexivity|]. right; right; right; right.
        split; [destruct ep as [[]|]; exact Hok|].
        exists (call_Claude (k0 :: k) sys msgs), answer.
        split; [reflexivity|]. destruct ep as [[]|]; exact Hf.
    + destruct (ok st); eexists; (split; [reflexivity | now right; right; right; left]).
  - eexists; split; [reflexivity | now right; right; right; left].
Qed.

(** ** More on the normalizer *)

Section TrimFacts.

Lemma trimStart_spaces (w s : jsstring) :
  forallb is_white_space w = true -> trimStart (w ++ s) = trimStart s.
Proof.
  induction w as [|c w IH]; simpl; [reflexivity|].
  intros H; apply andb_true_iff in H as [Hc Hw]. rewrite Hc. auto.
Qed.

Lemma trim_spaces_end (s w : jsstring) :
  forallb is_white_space w = true -> trim (s ++ w) = trim s.
Proof.
  revert s; induction w as [|c w IH]; intros s; simpl.
  - now rewrite app_nil_r.
  - intros H; apply andb_true_iff in H as [Hc Hw].
    change (s ++ c :: w) with (s ++ [c] ++ w). rewrite app_assoc, IH by exact Hw.
    now apply trim_space_end.
Qed.

(** White space around a text does not change its trimmed form. *)
Lemma trim_surrounded (w1 s w2 : jsstring) :
  forallb is_white_space w1 = true -> forallb is_white_space w2 = true ->
  trim (w1 ++ s ++ w2) = trim s.
Proof.
  intros H1 H2. rewrite app_assoc, trim_spaces_end by exact H2.
  unfold trim. now rewrite trimStart_spaces.
Qed.

Lemma trimStart_cases (s : jsstring) :
  trimStart s = [] \/ exists c t, trimStart s = c :: t /\ is_white_space c = false.
Proof.
  induction s as [|c s IH]; simpl; [now left|].
  destruct (is_white_space c) eqn:Hc; [exact IH | right; now exists c, s].
Qed.

(** A trimmed text is empty or ends with a code unit that is no white
    space. *)
Lemma trim_ends (s : jsstring) :
  trim s = [] \/ exists p c, trim s = p ++ [c] /\ is_white_space c = false.
Proof.
  unfold trim, trimEnd.
  destruct (trimStart_cases (rev (trimStart s))) as [-> | (c & t & -> & Hc)].
  - now left.
  - right. exists (rev t), c. now split.
Qed.

(** And it is empty or begins with one. *)
Lemma trim_begins (s : jsstring) :
  trim s = [] \/ exists c t, trim s = c :: t /\ is_white_space c = false.
Proof.
  unfold trim.
  destruct (trimStart_cases s) as [-> | (c & t & -> & Hc)]; [now left|].
  right. destruct (trim_keeps_head c t Hc) as [t' Ht].
  unfold trim in Ht. rewrite trimStart_head in Ht by exact Hc.
  now exists c, t'.
Qed.

Lemma trim_idempotent (s : jsstring) : trim (trim s) = trim s.
Proof.
  destruct (trim_begins s) as [-> | (c & t & Hs & Hc)]; [reflexivity|].
  destruct (trim_ends s) as [He | (p & d & He & Hd)].
  - rewrite He in Hs; discriminate Hs.
  - rewrite Hs. destruct p as [|c' p].
    + rewrite Hs in He. injection He as -> ->.
      unfold trim. rewrite trimStart_head by exact Hc.
      now apply (trimEnd_last [] d).
    + rewrite Hs in He. injection He as -> ->.
      now apply trim_fixed.
Qed.

End TrimFacts.

(** White space around the reply never decides what is parsed: the text
    handed to [JSON.parse] is the same with and without it, and is itself
    trimmed; only the [raw] member of a fallback keeps the reply as it
    came. *)
Theorem surrounding_space_is_ignored
  (E : Engine) (ep : endpoint) (w1 text w2 : jsstring) :
  forallb is_white_space w1 = true ->
  forallb is_white_space w2 = true ->
  jsonText_of ep (w1 ++ text ++ w2) = jsonText_of ep text
  /\ trim (jsonText_of ep text) = jsonText_of ep text
  /\ normalize ep (str (w1 ++ text ++ w2))
     = match JSON_parse (jsonText_of ep text) with
       | Ok parsedData => Structured parsedData
       | Throw _ => RawFallback (str (w1 ++ text ++ w2))
       end.
Proof.
  intros H1 H2.
  assert (H : jsonText_of ep (w1 ++ text ++ w2) = jsonText_of ep text).
  { unfold jsonText_of. now rewrite trim_surrounded. }
  repeat split.
  - exact H.
  - unfold jsonText_of, strip_fences.
    destruct (startsWith (trim text) (js "```")); apply trim_idempotent.
  - unfold normalize, str. now rewrite H.
Qed.

Lemma surrounding_space_is_ignored_witness :
  jsonText_of (analyze analyze_js) ([32; 10] ++ jsq "{'a':1}" ++ [0xA0; 9])
  = jsonText_of (analyze analyze_js) (jsq "{'a':1}").
Proof.
  apply (@surrounding_space_is_ignored Reference.engine); reflexivity.
Defined.

Section TaggedFence.

Context {E : Engine}.

Lemma replace_open_before_fence (m : jsstring) :
  no_backtick m -> replace_all re_fence_open (m ++ fence) = m ++ fence.
Proof.
  intros Hm. now rewrite replace_all_plain by (apply re_fence_open_backtick_led || exact Hm).
Qed.

Lemma replace_close_before_fence (ep : endpoint) (m : jsstring) :
  no_backtick m -> replace_all (re_fence_close_of ep) (m ++ fence) = m.
Proof.
  intros Hm.
  rewrite replace_all_plain by (apply re_fence_close_of_backtick_led || exact Hm).
  now rewrite replace_close_fence, app_nil_r.
Qed.

(** What is parsed of a reply between [```json] and a closing fence,
    with or without line feeds at the fences. *)
Lemma jsonText_of_tagged (ep : endpoint) (m : jsstring) :
  no_backtick m -> jsonText_of ep (js "```json" ++ m ++ fence) = trim m.
Proof.
  intros Hm. unfold jsonText_of.
  change (js "```json" ++ m ++ fence) with (fence ++ (js "json" ++ m) ++ fence).
  rewrite trim_fenced. unfold strip_fences, startsWith.
  change (js "```") with fence. rewrite strip_prefix_app.
  rewrite (replace_all_match re_fence_open _ (optional 10 (m ++ fence)))
    by (apply re_fence_open_consuming || reflexivity).
  destruct m as [|c m'].
  - reflexivity || (destruct ep; reflexivity).
  - cbn [app optional]. destruct (N.eqb_spec c 10) as [->|Hc].
    + inversion_clear Hm as [|? ? _ Hm'].
      rewrite replace_open_before_fence, replace_close_before_fence by exact Hm'.
      reflexivity.
    + change (c :: m' ++ fence) with ((c :: m') ++ fence).
      now rewrite replace_open_before_fence, replace_close_before_fence.
Qed.

End TaggedFence.

(** A reply wrapped in a [```json] fence and a closing fence, with white
    space around it and no backtick inside, is handled as its inside
    would be: [Structured] with the value of the trimmed inside when that
    is valid JSON, and otherwise the raw fallback carrying the whole
    reply. *)
Theorem tagged_fence_is_stripped
  (E : Engine) (ep : endpoint) (w1 m w2 : jsstring) :
  forallb is_white_space w1 = true ->
  forallb is_white_space w2 = true ->
  no_backtick m ->
  normalize ep (str (w1 ++ (js "```json" ++ m ++ fence) ++ w2))
  = match JSON_parse (trim m) with
    | Ok parsedData => Structured parsedData
    | Throw _ => RawFallback (str (w1 ++ (js "```json" ++ m ++ fence) ++ w2))
    end.
Proof.
  intros H1 H2 Hm.
  destruct (surrounding_space_is_ignored E ep w1 (js "```json" ++ m ++ fence) w2 H1 H2)
    as (_ & _ & ->).
  now rewrite jsonText_of_tagged.
Qed.

Lemma tagged_fence_is_stripped_witness :
  @normalize Reference.engine part_001
    (str ([32] ++ (js "```json" ++ jsq "{'a':[1,2]}" ++ fence) ++ [10]))
  = match Reference.parse (trim (jsq "{'a':[1,2]}")) with
    | Ok parsedData => @Structured Reference.engine parsedData
    | Throw _ =>
        @RawFallback Reference.engine
          (str ([32] ++ (js "```json" ++ jsq "{'a':[1,2]}" ++ fence) ++ [10]))
    end.
Proof.
  apply (@tagged_fence_is_stripped Reference.engine part_001 [32] (jsq "{'a':[1,2]}") [10]);
    [reflexivity | reflexivity | repeat constructor; discriminate].
Defined.

Section SiblingNormalizers.

Context {E : Engine}.

Lemma optional_cases (c : char16) (s : jsstring) :
  optional c s = s \/ s = c :: optional c s.
Proof.
  destruct s as [|d t]; simpl; [now left|].
  destruct (N.eqb_spec d c) as [->|]; [now right | now left].
Qed.

Lemma ends_solid_suffix (a b : jsstring) :
  ends_solid (a ++ b) -> b <> [] -> ends_solid b.
Proof.
  intros (p & c & H & Hc) Hb.
  destruct (exists_last Hb) as (b' & d & ->).
  rewrite app_assoc in H. apply app_inj_tail in H as [_ ->]. now exists b', c.
Qed.

Lemma ends_tagged_suffix (a b : jsstring) : ends_tagged b -> ends_tagged (a ++ b).
Proof.
  intros (p & [-> | ->]); exists (a ++ p); rewrite <- !app_assoc; [now left | now right].
Qed.

(** The opening pattern consumes the whole rest of a text only at a
    tagged marker that ends it, or in front of a final line feed. *)
Lemma re_fence_open_to_end (u : jsstring) :
  re_fence_open u = Some [] -> ends_solid u -> ends_tagged u.
Proof.
  unfold re_fence_open.
  destruct (strip_prefix (js "```jso") u) as [t|] eqn:Ht; [|discriminate].
  apply strip_prefix_inv in Ht; subst u. intros [= H] Hs.
  destruct (optional_cases 110 t) as [Hn | Hn].
  - rewrite Hn in H. destruct (optional_cases 10 t) as [Hl | Hl].
    + rewrite Hl in H; subst t. exists []. now left.
    + rewrite H in Hl; subst t. exfalso.
      destruct Hs as (p & c & Hp & Hc).
      change (js "```jso" ++ [10]) with (js "```jso" ++ [10]) in Hp.
      apply app_inj_tail in Hp as [_ <-]. discriminate Hc.
  - destruct (optional_cases 10 (optional 110 t)) as [Hl | Hl].
    + rewrite Hl in H. rewrite H in Hn; subst t. exists []. now right.
    + rewrite H in Hl. rewrite Hl in Hn; subst t. exfalso.
      destruct Hs as (p & c & Hp & Hc).
      change (js "```jso" ++ [110; 10]) with (js "```json" ++ [10]) in Hp.
      apply app_inj_tail in Hp as [_ <-]. discriminate Hc.
Qed.

Lemma re_fence_open_rest (u r : jsstring) :
  re_fence_open u = Some r -> exists p, u = p ++ r.
Proof.
  unfold re_fence_open.
  destruct (strip_prefix (js "```jso") u) as [t|] eqn:Ht; [|discriminate].
  apply strip_prefix_inv in Ht; subst u. intros [= <-].
  destruct (optional_cases 110 t) as [Hn | Hn];
    destruct (optional_cases 10 (optional 110 t)) as [Hl | Hl].
  - exists (js "```jso"). now rewrite Hl, Hn.
  - exists (js "```jso" ++ [10]). rewrite <- app_assoc. cbn [app].
    now rewrite <- Hl, Hn.
  - exists (js "```jso" ++ [110]). rewrite <- app_assoc. cbn [app].
    now rewrite Hl, <- Hn.
  - exists (js "```jso" ++ [110; 10]). rewrite <- app_assoc. cbn [app].
    now rewrite <- Hl, <- Hn.
Qed.

(** Removing the opening markers of a text that ends solid, and not
    with a tagged marker, leaves a text that ends solid. *)
Lemma replace_open_ends_solid (n : nat) :
  forall u, (length u <= n)%nat ->
  ends_solid u -> ~ ends_tagged u ->
  ends_solid (replace_all re_fence_open u).
Proof.
  induction n as [|n IH]; intros u Hlen Hs Ht.
  - destruct u; [|simpl in Hlen; lia].
    destruct Hs as (p & c & Hp & _). now destruct p.
  - destruct (re_fence_open u) as [r|] eqn:Hr.
    + rewrite (replace_all_match _ _ _ re_fence_open_consuming Hr).
      pose proof (re_fence_open_consuming _ _ Hr) as Hlt.
      destruct (re_fence_open_rest _ _ Hr) as [p Hp].
      destruct r as [|x r'].
      { destruct Ht. now apply re_fence_open_to_end. }
      apply IH; [lia | |].
      * rewrite Hp in Hs. now apply ends_solid_suffix in Hs.
      * intros Hx. apply Ht. rewrite Hp. now apply ends_tagged_suffix.
    + destruct u as [|c t]; [destruct Hs as (p & c & Hp & _); now destruct p|].
      rewrite (replace_all_keep _ _ _ Hr).
      destruct t as [|d t'].
      * destruct Hs as (p & c' & Hp & Hc). exists [], c.
        split; [reflexivity|].
        change [c] with ([] ++ [c]) in Hp. apply app_inj_tail in Hp as [_ ->]. exact Hc.
      * assert (Hs' : ends_solid (d :: t')).
        { change (c :: d :: t') with ([c] ++ d :: t') in Hs.
          now apply ends_solid_suffix in Hs. }
        assert (Ht' : ~ ends_tagged (d :: t')).
        { intros Hx. apply Ht. change (c :: d :: t') with ([c] ++ d :: t').
          now apply ends_tagged_suffix. }
        simpl in Hlen.
        destruct (IH (d :: t') ltac:(simpl; lia) Hs' Ht') as (p & c' & Hp & Hc).
        exists (c :: p), c'. split; [|exact Hc]. now rewrite Hp.
Qed.

(** On a text that is empty or ends solid, the two closing patterns
    match at the same places. *)
Lemma re_fence_close_agree (s : jsstring) :
  s = [] \/ ends_solid s -> re_fence_close_ws s = re_fence_close s.
Proof.
  intros Hs. unfold re_fence_close_ws, re_fence_close.
  destruct (strip_prefix (js "```") s) as [r|] eqn:Hr; [|reflexivity].
  destruct r as [|x r']; [reflexivity|].
  apply strip_prefix_inv in Hr.
  destruct Hs as [-> | Hs]; [discriminate Hr|].
  rewrite Hr in Hs. apply ends_solid_suffix in Hs; [|discriminate].
  destruct Hs as (p & c & -> & Hc).
  rewrite forallb_app. cbn. rewrite Hc. now rewrite andb_false_r.
Qed.

Lemma replace_close_agree (s : jsstring) :
  s = [] \/ ends_solid s ->
  replace_all re_fence_close_ws s = replace_all re_fence_close s.
Proof.
  induction s as [|c t IH]; [reflexivity|]. intros Hs.
  pose proof (re_fence_close_agree _ Hs) as Ha.
  destruct (re_fence_close (c :: t)) as [r|] eqn:Hr.
  - pose proof (re_fence_close_of_rest part_001 _ _ Hr); subst r.
    rewrite (replace_all_match _ _ _ re_fence_close_ws_consuming Ha).
    now rewrite (replace_all_match _ _ _ re_fence_close_consuming Hr).
  - rewrite (replace_all_keep _ _ _ Ha), (replace_all_keep _ _ _ Hr). f_equal.
    apply IH. destruct t as [|d t']; [now left | right].
    destruct Hs as [Hs | Hs]; [discriminate Hs|].
    change (c :: d :: t') with ([c] ++ d :: t') in Hs.
    now apply ends_solid_suffix in Hs.
Qed.

End SiblingNormalizers.

(** The normalizers of the three files give the same response for every
    reply, except possibly for one whose trimmed text ends with a tagged
    marker ([```jso] or [```json]): only there can white space be left
    between a closing fence and the end of the text, which the closing
    pattern of part_001 ([/```$/]) does not accept and that of the other
    two ([/```\s*$/]) does. *)
Theorem sibling_normalizers_agree
  (E : Engine) (ep1 ep2 : endpoint) (text : jsstring) :
  ~ ends_tagged (trim text) ->
  normalize ep1 (str text) = normalize ep2 (str text).
Proof.
  intros Ht.
  assert (H : forall f, jsonText_of (analyze f) text = jsonText_of part_001 text).
  { intros f. unfold jsonText_of, strip_fences.
    destruct (startsWith (trim text) (js "```")) eqn:Hf; [|reflexivity].
    f_equal. cbn [re_fence_close_of]. apply replace_close_agree.
    destruct (trim_ends text) as [-> | Hs]; [now left | right].
    apply (replace_open_ends_solid (length (trim text))); [lia | exact Hs | exact Ht]. }
  assert (H' : jsonText_of ep1 text = jsonText_of ep2 text).
  { destruct ep1 as [f1|], ep2 as [f2|]; try reflexivity.
    - apply H.
    - symmetry; apply H. }
  unfold normalize, str. now rewrite H'.
Qed.

Lemma sibling_normalizers_agree_witness :
  @normalize Reference.engine (analyze analyze_js)
    (str (js "```json" ++ LF ++ jsq "{'a':1}" ++ LF ++ js "```" ++ LF))
  = @normalize Reference.engine part_001
      (str (js "```json" ++ LF ++ jsq "{'a':1}" ++ LF ++ js "```" ++ LF)).
Proof.
  apply (@sibling_normalizers_agree Reference.engine).
  intros (p & [H | H]);
    apply (f_equal (@rev char16)) in H; rewrite rev_app_distr in H;
    discriminate H.
Defined.

(** Where they differ: a reply that ends with a tagged marker behind a
    fenced block.  The global opening pattern removes that marker, white
    space is left behind the closing fence, and so analyze.js and
    part_002 strip that fence and parse the inside, while part_001 keeps
    the fence in the text it parses. *)
Theorem sibling_normalizers_differ
  (f : analyze_file) (m : jsstring) :
  no_backtick m ->
  jsonText_of (analyze f)
    (fence_open_json ++ m ++ LF ++ fence ++ LF ++ js "```json")
  = trim m
  /\ jsonText_of part_001
       (fence_open_json ++ m ++ LF ++ fence ++ LF ++ js "```json")
     = trim (m ++ LF ++ fence).
Proof.
  intros Hm.
  assert (Htrim : trim (fence_open_json ++ m ++ LF ++ fence ++ LF ++ js "```json")
                  = fence_open_json ++ m ++ LF ++ fence ++ LF ++ js "```json").
  { assert (Heq : fence_open_json ++ m ++ LF ++ fence ++ LF ++ js "```json"
                  = 96 :: (js "``json" ++ LF ++ m ++ LF ++ fence ++ LF ++ js "```jso")
                          ++ [110]).
    { change (fence_open_json ++ m ++ LF ++ fence ++ LF ++ js "```json")
        with (96 :: (js "``json" ++ LF) ++ m ++ (LF ++ fence ++ LF ++ js "```jso") ++ [110]).
      f_equal. now rewrite <- !app_assoc. }
    rewrite Heq. now apply trim_fixed. }
  assert (Hopen : replace_all re_fence_open
                    (fence_open_json ++ m ++ LF ++ fence ++ LF ++ js "```json")
                  = m ++ LF ++ fence ++ LF).
  { rewrite (replace_all_match re_fence_open _ (m ++ LF ++ fence ++ LF ++ js "```json"))
      by (apply re_fence_open_consuming || reflexivity).
    rewrite app_assoc.
    rewrite replace_all_plain
      by (apply re_fence_open_backtick_led
          || (apply no_backtick_app; [exact Hm | apply no_backtick_LF])).
    rewrite <- app_assoc. reflexivity. }
  unfold jsonText_of. rewrite Htrim. unfold strip_fences, startsWith.
  change (strip_prefix (js "```")
            (fence_open_json ++ m ++ LF ++ fence ++ LF ++ js "```json"))
    with (Some (js "json" ++ LF ++ m ++ LF ++ fence ++ LF ++ js "```json")).
  rewrite Hopen. split.
  - cbn [re_fence_close_of]. rewrite app_assoc.
    rewrite replace_all_plain
      by (apply re_fence_close_ws_backtick_led
          || (apply no_backtick_app; [exact Hm | apply no_backtick_LF])).
    change (replace_all re_fence_close_ws (fence ++ LF)) with (@nil char16).
    rewrite app_nil_r. now apply trim_space_end.
  - cbn [re_fence_close_of]. rewrite app_assoc.
    rewrite replace_all_plain
      by (apply re_fence_close_backtick_led
          || (apply no_backtick_app; [exact Hm | apply no_backtick_LF])).
    change (replace_all re_fence_close (fence ++ LF)) with (fence ++ LF).
    rewrite <- app_assoc.
    replace (m ++ LF ++ fence ++ LF) with ((m ++ LF ++ fence) ++ [10])
      by (now rewrite <- !app_assoc).
    now apply trim_space_end.
Qed.

Lemma sibling_normalizers_differ_witness :
  jsonText_of (analyze part_002)
    (fence_open_json ++ jsq "{'a':1}" ++ LF ++ fence ++ LF ++ js "```json")
  = trim (jsq "{'a':1}")
  /\ jsonText_of part_001
       (fence_open_json ++ jsq "{'a':1}" ++ LF ++ fence ++ LF ++ js "```json")
     = trim (jsq "{'a':1}" ++ LF ++ fence).
Proof.
  apply sibling_normalizers_differ. repeat constructor; discriminate.
Defined.

(** ** The clock *)

(** Only part_002 reads the clock, and only to date the email and
    message prompt of a request that gives no (truthy) [currentYear]:
    in every other case the outcome is the same whatever the year is. *)
Theorem clock_only_dates_email_prompt
  (E : Engine) (P : Prompts) (ep : endpoint) (env : environment) (w1 w2 : world)
  (req : request) :
  fetch w1 = fetch w2 ->
  (forall body,
     ep = analyze part_002 -> req_body req = Some body ->
     truthy (field body "currentYear") = true
     \/ is_string (field body "parseType") "email"
        || is_string (field body "parseType") "message" = false) ->
  handler ep env w1 req = handler ep env w2 req.
Proof.
  intros Hf Hy. unfold handler.
  destruct (eqb (method req) (js "OPTIONS")); [reflexivity|].
  destruct (negb (eqb (method req) (js "POST"))); [reflexivity|].
  destruct (env (api_key_name ep)) as [[|k0 k]|]; try reflexivity.
  destruct (req_body req) as [body|] eqn:Hb; [|reflexivity].
  destruct (json_eq_null body) as [->|Hnull]; [reflexivity|].
  rewrite !try_block_body by exact Hnull.
  assert (Hp : plan ep w1 body = plan ep w2 body).
  { destruct ep as [[|]|]; try reflexivity.
    unfold plan, build_prompts.
    destruct (Hy body eq_refl eq_refl) as [Hc | Hm].
    - unfold email_system.
      destruct (field body "currentYear") as [y|]; [|discriminate Hc].
      unfold or_else. now rewrite Hc.
    - now rewrite Hm. }
  rewrite Hp, Hf. reflexivity.
Qed.

Lemma clock_only_dates_email_prompt_witness :
  @handler Reference.engine Reference.prompts (analyze part_002)
    (Reference.with_key (js "sk-test"))
    (@Build_world Reference.engine (fun _ => Rejected (js "fetch failed"))
       {| Reference.negative := false; Reference.mantissa := 2025;
          Reference.exponent10 := 0 |})
    (Reference.post [("parseType", JString (js "email"));
                     ("content", JString (js "ETA 12/01"));
                     ("currentYear", Reference.int 2024)]%string)
  = @handler Reference.engine Reference.prompts (analyze part_002)
      (Reference.with_key (js "sk-test")) Reference.offline
      (Reference.post [("parseType", JString (js "email"));
                       ("content", JString (js "ETA 12/01"));
                       ("currentYear", Reference.int 2024)]%string).
Proof.
  apply (@clock_only_dates_email_prompt Reference.engine Reference.prompts);
    [reflexivity|].
  intros body _ [= <-]. left. reflexivity.
Defined.

(** ** The build script *)


(** [formatBytes] chooses the unit by the thresholds 1024 and 1024^2 and
    prints the nearest tenth of a KB, or hundredth of a MB, a tie going
    up: the number [n] it prints (as [n / 10] KB, or [n / 100] MB) is off
    by at most half a unit of the last digit shown.  (Sizes are integers
    below 2^53, which a JavaScript number holds exactly.) *)
Theorem formatBytes_is_nearest (bytes : Z) :
  ((1024 <= bytes < 1024 * 1024)%Z ->
   exists n : Z,
     BuildScript.formatBytes bytes = BuildScript.point (Z.to_N n) 1 ++ js " KB"
     /\ (10 <= n <= 10240)%Z
     /\ (- 512 < 1024 * n - 10 * bytes <= 512)%Z)
  /\ ((1024 * 1024 <= bytes < 2 ^ 53)%Z ->
      exists n : Z,
        BuildScript.formatBytes bytes = BuildScript.point (Z.to_N n) 2 ++ js " MB"
        /\ (100 <= n)%Z
        /\ (- 524288 < 1048576 * n - 100 * bytes <= 524288)%Z).
Proof.
  split; intros Hb; unfold BuildScript.formatBytes, BuildScript.scaled_toFixed.
  - destruct (Z.ltb_spec bytes 1024); [lia|].
    destruct (Z.ltb_spec bytes (1024 * 1024)); [|lia].
    exists ((bytes * 10 ^ Z.of_nat 1 + 2 ^ (10 - 1)) / 2 ^ 10)%Z.
    split; [reflexivity|].
    change (10 ^ Z.of_nat 1)%Z with 10%Z. change (2 ^ (10 - 1))%Z with 512%Z.
    change (2 ^ 10)%Z with 1024%Z.
    pose proof (Z.div_mod (bytes * 10 + 512) 1024 ltac:(lia)) as H1.
    pose proof (Z.mod_pos_bound (bytes * 10 + 512) 1024 ltac:(lia)) as H2.
    lia.
  - destruct (Z.ltb_spec bytes 1024); [lia|].
    destruct (Z.ltb_spec bytes (1024 * 1024)); [lia|].
    exists ((bytes * 10 ^ Z.of_nat 2 + 2 ^ (20 - 1)) / 2 ^ 20)%Z.
    split; [reflexivity|].
    change (10 ^ Z.of_nat 2)%Z with 100%Z. change (2 ^ (20 - 1))%Z with 524288%Z.
    change (2 ^ 20)%Z with 1048576%Z.
    pose proof (Z.div_mod (bytes * 100 + 524288) 1048576 ltac:(lia)) as H1.
    pose proof (Z.mod_pos_bound (bytes * 100 + 524288) 1048576 ltac:(lia)) as H2.
    lia.
Qed.

(** Just below one MB the rounding goes over the unit: every size from
    1048525 to 1048575 bytes is printed as [1024.0 KB]. *)
Theorem formatBytes_top_of_KB (bytes : Z) :
  (1048525 <= bytes < 1048576)%Z ->
  BuildScript.formatBytes bytes = js "1024.0 KB".
Proof.
  intros Hb. unfold BuildScript.formatBytes, BuildScript.scaled_toFixed.
  destruct (Z.ltb_spec bytes 1024); [lia|].
  destruct (Z.ltb_spec bytes (1024 * 1024)); [|lia].
  change (10 ^ Z.of_nat 1)%Z with 10%Z. change (2 ^ (10 - 1))%Z with 512%Z.
  change (2 ^ 10)%Z with 1024%Z.
  assert (Hq : ((bytes * 10 + 512) / 1024 = 10240)%Z).
  { symmetry. apply (Z.div_unique _ _ _ (bytes * 10 + 512 - 10240 * 1024)%Z); lia. }
  rewrite Hq. reflexivity.
Qed.

Lemma formatBytes_top_of_KB_witness :
  BuildScript.formatBytes 1048575 = js "1024.0 KB".
Proof. apply formatBytes_top_of_KB. lia. Defined.

(** A negative number of bytes (the saving, when the minified page is
    larger than the original) is printed in bytes with its sign, however
    large it is: it is never scaled to KB or MB. *)
Theorem formatBytes_negative (bytes : Z) :
  (- 2 ^ 53 < bytes < 0)%Z ->
  BuildScript.formatBytes bytes
  = js "-" ++ BuildScript.integer (- bytes) ++ js " B".
Proof.
  intros Hb. destruct bytes as [|p|p]; try lia. reflexivity.
Qed.

Lemma formatBytes_negative_witness :
  BuildScript.formatBytes (-5000000) = js "-5000000 B".
Proof. apply (formatBytes_negative (-5000000)). split; reflexivity. Defined.

(** ** More on the gateway *)

(** A request that is no POST is answered by the method check alone: the
    response (the empty 200 for [OPTIONS], the 405 failure otherwise) is
    the same whatever the environment, the provider and the body are,
    and no call is made. *)
Theorem method_check_comes_first
  (E : Engine) (P : Prompts) (ep : endpoint) (env1 env2 : environment)
  (w1 w2 : world) (m : jsstring) (b1 b2 : request_body) :
  m <> js "POST" ->
  handler ep env1 w1 {| method := m; req_body := b1 |}
  = handler ep env2 w2 {| method := m; req_body := b2 |}
  /\ calls (handler ep env1 w1 {| method := m; req_body := b1 |}) = []
  /\ responses (handler ep env1 w1 {| method := m; req_body := b1 |})
     = [if eqb m (js "OPTIONS") then Preflight else MethodNotAllowed].
Proof.
  intros Hm. unfold handler. cbn [method req_body].
  destruct (eqb m (js "OPTIONS")); [repeat split|].
  destruct (eqb m (js "POST")) eqn:Hp; [apply eqb_eq in Hp; contradiction|].
  repeat split.
Qed.

Lemma method_check_comes_first_witness :
  @handler Reference.engine Reference.prompts part_001
    Reference.no_key Reference.offline
    {| method := js "OPTIONS"; req_body := None |}
  = @handler Reference.engine Reference.prompts part_001
      (Reference.with_key (js "sk-test"))
      (Reference.answering (Resolved 200 (Ok (js "{}"))))
      {| method := js "OPTIONS"; req_body := Some (JString (js "x")) |}.
Proof.
  apply (@method_check_comes_first Reference.engine Reference.prompts).
  discriminate.
Defined.

(** An email or message request of analyze.js with text and no image
    sends the content itself as the one plain user message.  The system
    prompt is the email prompt; when [existingShips] is a non-empty
    array, the note on existing ships and the names joined by a comma and
    a space are appended to it, and when it is missing or an empty array
    nothing is. *)
Theorem email_text_request_call
  (E : Engine) (P : Prompts) (env : environment) (w : world)
  (req : request) (apiKey : jsstring) (body content : JSON) :
  method req = js "POST" ->
  env (api_key_name (analyze analyze_js)) = Some apiKey -> apiKey <> [] ->
  req_body req = Some body -> body <> JNull ->
  is_string (field body "parseType") "email"
  || is_string (field body "parseType") "message" = true ->
  field body "content" = Some content -> truthy (Some content) = true ->
  truthy (field body "imageBase64") = false ->
  (field body "existingShips" = None \/ field body "existingShips" = Some (JArray []) ->
   calls (handler (analyze analyze_js) env w req)
   = [ call_Claude apiKey analyze_js_email_system
         [ {| role := js "user"; content := plain (Some content) |} ] ])
  /\ (forall ship ships joined,
        field body "existingShips" = Some (JArray (ship :: ships)) ->
        Array_join (ship :: ships) (js ", ") = Ok joined ->
        calls (handler (analyze analyze_js) env w req)
        = [ call_Claude apiKey
              (analyze_js_email_system ++ LF ++ LF
               ++ js "Existing ships in the system (try to match vessel names): "
               ++ joined)
              [ {| role := js "user"; content := plain (Some content) |} ] ]).
Proof.
  intros Hm Hk Hne Hb Hnull Hmode Hc Hct Hi.
  rewrite (handler_with_credential _ _ _ _ apiKey) by assumption.
  rewrite Hb, try_block_body by exact Hnull. unfold plan, build_prompts.
  rewrite Hmode. cbn [email_system bind]. split.
  - intros [Hs | Hs]; rewrite Hs; cbn [existingShips_note bind];
      unfold build_messages; rewrite Hi, Hc, Hct; rewrite app_nil_r;
      destruct (after_fetch _ _); reflexivity.
  - intros ship ships joined Hs Hj. rewrite Hs. cbn [existingShips_note].
    rewrite Hj. cbn [bind]. unfold build_messages. rewrite Hi, Hc, Hct.
    rewrite <- !app_assoc.
    destruct (after_fetch _ _); reflexivity.
Qed.

Lemma email_text_request_call_witness :
  calls (@handler Reference.engine Reference.prompts (analyze analyze_js)
           (Reference.with_key (js "sk-test")) Reference.offline
           (Reference.post [("parseType", JString (js "message"));
                            ("content", JString (js "ETA MV TEST 12/01"));
                            ("existingShips",
                             JArray [JString (js "MV TEST"); JString (js "MV ALPHA")])]%string))
  = [ call_Claude (js "sk-test")
        (@analyze_js_email_system Reference.prompts ++ LF ++ LF
         ++ js "Existing ships in the system (try to match vessel names): "
         ++ js "MV TEST, MV ALPHA")
        [ {| role := js "user";
             content := plain (Some (JString (js "ETA MV TEST 12/01"))) |} ] ].
Proof.
  apply (@email_text_request_call Reference.engine Reference.prompts
           (Reference.with_key (js "sk-test")) Reference.offline
           (Reference.post [("parseType", JString (js "message"));
                            ("content", JString (js "ETA MV TEST 12/01"));
                            ("existingShips",
                             JArray [JString (js "MV TEST"); JString (js "MV ALPHA")])]%string)
           (js "sk-test") _ (JString (js "ETA MV TEST 12/01"))
           eq_refl eq_refl ltac:(discriminate) eq_refl ltac:(discriminate)
           eq_refl eq_refl eq_refl eq_refl)
    with (ship := JString (js "MV TEST")) (ships := [JString (js "MV ALPHA")]);
    reflexivity.
Defined.
